(** * The Tezos account bridge (libcore flavour)

    A shallow embedding of [src/families/tezos/bridge/libcore.js]:
    the fee-calculator cache key, [getTransactionStatus] and
    [prepareTransaction], together with the properties the specification
    states about them.

    The bridge is asynchronous JavaScript.  Every [await] in it is
    sequential, so a call is modelled as a function from the state of the
    world to a settled promise (resolved or rejected) and the next state of
    the world.  The world holds the history of the calls made so far, the
    two memoisation caches of the module and the next free object address.

    Objects whose identity the bridge compares carry their address; the
    functions the bridge imports are parameters ([Collaborators]), free to
    answer as they like and to reject. *)

From Stdlib Require Import ZArith.
From Stdlib Require DecimalString DecimalZ.
From stdpp Require Import base option list strings gmap.

Local Open Scope Z_scope.
Local Open Scope string_scope.

(** ** JavaScript values *)

(** An [Error] object: the bridge only ever reads [error.name]. *)
Record JsError : Type := mkError {
  err_name : string;
  err_message : string
}.

(** A settled promise. *)
Inductive result (A : Type) : Type :=
| Ok (a : A)
| Throw (e : JsError).
Arguments Ok {A} a.
Arguments Throw {A} e.

(** A [BigNumber] object: its address, which [===] and [!==] compare, and
    its numeric value.  Amounts are integers (counts of the smallest
    unit). *)
Record BigNumber : Type := mkBN {
  bn_ref : nat;
  bn_val : Z
}.

(** [NetworkInfo] of [families/tezos/types]. *)
Record NetworkInfo : Type := mkNetworkInfo {
  ni_ref : nat;
  ni_family : string;
  ni_fees : BigNumber
}.

(** [Transaction] of [families/tezos/types]: the draft.  A field of a
    nullable type ([?T], or an optional property) is an [option]; [null]
    and [undefined] are both [None]: both are falsy, and no path of the
    bridge compares one with the other. *)
Record Transaction : Type := mkTransaction {
  t_ref : nat;
  t_family : string;
  t_mode : string;
  t_amount : BigNumber;
  t_fees : option BigNumber;
  t_gasLimit : option BigNumber;
  t_storageLimit : option BigNumber;
  t_recipient : string;
  t_networkInfo : option NetworkInfo;
  t_subAccountId : option string;
  t_useAllAmount : option bool
}.

(** The currency is only handed over to [validateRecipient]. *)
Record Currency : Type := mkCurrency {
  currency_id : string
}.

Record SubAccount : Type := mkSubAccount {
  sub_id : string;
  sub_balance : BigNumber
}.

Record Account : Type := mkAccount {
  acc_id : string;
  acc_balance : BigNumber;
  acc_currency : Currency;
  acc_subAccounts : option (list SubAccount);
  acc_freshAddress : string
}.

(** [subAcc || a]: the account whose balance the status is computed
    from. *)
Inductive AccountLike : Type :=
| Parent (a : Account)
| Child (s : SubAccount).

Definition balance (x : AccountLike) : BigNumber :=
  match x with
  | Parent a => acc_balance a
  | Child s => sub_balance s
  end.

(** *** Truthiness and strict equality *)

(** [ToBoolean] of the language: what [!x], [x ? _ : _], [x && _] and
    [x || _] test. *)
Class ToBoolean (A : Type) : Type := toBoolean : A -> bool.

#[export] Instance bool_truthy : ToBoolean bool := fun b => b.
#[export] Instance string_truthy : ToBoolean string :=
  fun s => negb (String.eqb s "").
#[export] Instance BigNumber_truthy : ToBoolean BigNumber := fun _ => true.
#[export] Instance NetworkInfo_truthy : ToBoolean NetworkInfo := fun _ => true.
#[export] Instance SubAccount_truthy : ToBoolean SubAccount := fun _ => true.
#[export] Instance JsError_truthy : ToBoolean JsError := fun _ => true.
#[export] Instance list_truthy {A} : ToBoolean (list A) := fun _ => true.
#[export] Instance option_truthy {A} `{ToBoolean A} : ToBoolean (option A) :=
  fun o => match o with Some a => toBoolean a | None => false end.

(** [x === y]: objects by address, strings by value. *)
Class StrictEq (A : Type) : Type := strict_eq : A -> A -> bool.

#[export] Instance string_strict_eq : StrictEq string := String.eqb.
#[export] Instance BigNumber_strict_eq : StrictEq BigNumber :=
  fun x y => Nat.eqb (bn_ref x) (bn_ref y).
#[export] Instance NetworkInfo_strict_eq : StrictEq NetworkInfo :=
  fun x y => Nat.eqb (ni_ref x) (ni_ref y).
#[export] Instance option_strict_eq {A} `{StrictEq A} : StrictEq (option A) :=
  fun x y =>
    match x, y with
    | Some a, Some b => strict_eq a b
    | None, None => true
    | _, _ => false
    end.

Notation "x !== y" := (negb (strict_eq x y)) (at level 70, no associativity).

(** ** Results of the collaborators *)

(** What [validateRecipient] resolves to. *)
Record RecipientValidation : Type := mkValidation {
  recipientError : option JsError;
  recipientWarning : option JsError
}.

(** What [estimateGasLimitAndStorage] resolves to. *)
Record GasAndStorage : Type := mkGasAndStorage {
  r_gasLimit : BigNumber;
  r_storage : BigNumber
}.

(** The transaction status report. *)
Record TransactionStatus : Type := mkStatus {
  errors : gmap string JsError;
  warnings : gmap string JsError;
  estimatedFees : BigNumber;
  amount : BigNumber;
  totalSpent : BigNumber;
  recipientIsReadOnly : bool
}.

(** ** The world *)

(** The calls the bridge makes, in the order it makes them. *)
Inductive Call : Type :=
| call_getAccountNetworkInfo (a : Account)
| call_invariant (condition : bool) (format : string)
| call_validateRecipient (c : Currency) (recipient : string)
| call_estimateGasLimitAndStorage (a : Account) (addr : string)
| call_asTezosLikeAccount (a : Account)
| call_getEstimatedGasLimit (a : Account) (addr : string)
| call_getStorage (a : Account) (addr : string)
| call_calculateFees (a : Account) (t : Transaction)
| call_getFeesForTransaction (a : Account) (t : Transaction).

Record World : Type := mkWorld {
  history : list Call;
  next_ref : nat;
  gasCache : list (string * result GasAndStorage);
  feesCache : list (string * result BigNumber)
}.

(** *** The monad of asynchronous computations *)

Definition M (A : Type) : Type := World -> result A * World.

#[export] Instance M_ret : MRet M := fun A a w => (Ok a, w).
#[export] Instance M_bind : MBind M := fun A B f m w =>
  match m w with
  | (Ok a, w') => f a w'
  | (Throw e, w') => (Throw e, w')
  end.

Definition throw {A} (e : JsError) : M A := fun w => (Throw e, w).

(** [p.then(x => Ok x, e => Throw e)]: a promise that always resolves,
    with how [p] settled. *)
Definition settle {A} (m : M A) : M (result A) :=
  fun w => let '(r, w') := m w in (Ok r, w').

(** A call is appended to the history. *)
Definition record (c : Call) : M unit :=
  fun w => (Ok tt, mkWorld (history w ++ [c]) (next_ref w)
                           (gasCache w) (feesCache w)).

(** A call to an imported function: it is recorded, and it settles the
    way the collaborator decides, which may depend on everything that
    happened before. *)
Definition external {A} (c : Call) (f : list Call -> result A) : M A :=
  fun w =>
    (f (history w),
     mkWorld (history w ++ [c]) (next_ref w) (gasCache w) (feesCache w)).

(** The address of a newly allocated object. *)
Definition fresh : M nat :=
  fun w => (Ok (next_ref w),
            mkWorld (history w) (S (next_ref w)) (gasCache w) (feesCache w)).

(** ** The collaborators *)

(** The functions the bridge imports and does not define.  Each one may
    answer differently as the history grows.  [validateRecipient] never
    rejects: an invalid address is reported in the value it resolves to.
    [BigNumber_toString] is [BigNumber.prototype.toString], on the value of
    the number; [cache_max] is the capacity of a memoisation cache. *)
Record Collaborators : Type := mkCollaborators {
  getAccountNetworkInfo : list Call -> Account -> result NetworkInfo;
  validateRecipient : list Call -> Currency -> string -> RecipientValidation;
  asTezosLikeAccount : list Call -> Account -> result unit;
  getEstimatedGasLimit : list Call -> Account -> string -> result BigNumber;
  getStorage : list Call -> Account -> string -> result BigNumber;
  getFeesForTransaction :
    list Call -> Account -> Transaction -> result BigNumber;
  BigNumber_toString : Z -> string;
  cache_max : nat
}.

(** ** The memoising cache *)

(** The bridge wraps its two estimators in [makeLRUCache], which it imports
    from [src/cache.js]; that file is not among the sources, so the cache
    is taken from section 4.1 of the specification.  The store is a list of
    keyed promises, most recently used first.  A stored promise is seen as
    settled: every call is awaited before the next one starts.  Expiry by
    age is left out. *)
Section Cache.
Context {V : Type}.

(** Modelled from the spec: the lookup of [makeLRUCache] ([src/cache.js]
    is missing), the promise stored under a key, if any. *)
Fixpoint cache_get (key : string) (c : list (string * result V))
  : option (result V) :=
  match c with
  | [] => None
  | (k, p) :: c' => if String.eqb k key then Some p else cache_get key c'
  end.

(** Modelled from the spec: the removal of an entry of [makeLRUCache]
    ([src/cache.js] is missing), used when the stored promise rejects. *)
Definition cache_del (key : string) (c : list (string * result V))
  : list (string * result V) :=
  List.filter (fun e => negb (String.eqb (fst e) key)) c.

(** Modelled from the spec: the store operation of [makeLRUCache]
    ([src/cache.js] is missing).  The entry becomes the most recent one and
    the least recently used entries beyond the capacity are evicted. *)
Definition cache_set (max : nat) (key : string) (p : result V)
    (c : list (string * result V)) : list (string * result V) :=
  take max ((key, p) :: cache_del key c).

(** Modelled from the spec: the recency update of [makeLRUCache]
    ([src/cache.js] is missing).  A hit makes the entry the most recent
    one. *)
Definition cache_touch (key : string) (p : result V)
    (c : list (string * result V)) : list (string * result V) :=
  (key, p) :: cache_del key c.
End Cache.

(** Where a cached function keeps its store in the world. *)
Record Slot (V : Type) : Type := mkSlot {
  slot_read : World -> list (string * result V);
  slot_write : list (string * result V) -> World -> World
}.
Arguments slot_read {V} s w.
Arguments slot_write {V} s c w.

Definition gasSlot : Slot GasAndStorage :=
  mkSlot GasAndStorage gasCache
    (fun c w => mkWorld (history w) (next_ref w) c (feesCache w)).

Definition feesSlot : Slot BigNumber :=
  mkSlot BigNumber feesCache
    (fun c w => mkWorld (history w) (next_ref w) (gasCache w) c).

(** Modelled from the spec: [makeLRUCache f keyExtractor] of
    [src/cache.js], which is missing (section 4.1).  On a hit the stored
    promise is returned and [f] is not invoked; on a miss [f] is invoked,
    its promise is stored under the key, and it is removed again if it
    rejects. *)
Definition makeLRUCache {A B V : Type} (max : nat) (slot : Slot V)
    (f : A -> B -> M V) (keyExtractor : A -> B -> string) : A -> B -> M V :=
  fun a b w =>
    let key := keyExtractor a b in
    match cache_get key (slot_read slot w) with
    | Some p => (p, slot_write slot (cache_touch key p (slot_read slot w)) w)
    | None =>
        let '(p, w1) := f a b w in
        let w2 :=
          slot_write slot (cache_set max key p (slot_read slot w1)) w1 in
        match p with
        | Ok _ => (p, w2)
        | Throw _ =>
            (p, slot_write slot (cache_del key (slot_read slot w2)) w2)
        end
    end.

(** ** Errors the bridge raises *)

(** [new FeeNotLoaded()] and [new FeeTooHigh()] of [@ledgerhq/errors]. *)
Definition FeeNotLoaded : JsError := mkError "FeeNotLoaded" "FeeNotLoaded".
Definition FeeTooHigh : JsError := mkError "FeeTooHigh" "FeeTooHigh".

(** [invariant(condition, format)]: throws when the condition is false. *)
Definition invariant (condition : bool) (format : string) : M unit :=
  record (call_invariant condition format);;
  if condition then mret tt
  else throw (mkError "Invariant Violation" format).

(** ** BigNumber arithmetic *)

(** [BigNumber(z)]: a new object. *)
Definition BigNumber_of (z : Z) : M BigNumber :=
  r ← fresh; mret (mkBN r z).

Definition plus (x y : BigNumber) : M BigNumber :=
  BigNumber_of (bn_val x + bn_val y).
Definition minus (x y : BigNumber) : M BigNumber :=
  BigNumber_of (bn_val x - bn_val y).
Definition times (x : BigNumber) (n : Z) : M BigNumber :=
  BigNumber_of (bn_val x * n).
Definition gt (x : BigNumber) (n : Z) : bool := Z.gtb (bn_val x) n.
Definition gt_bn (x y : BigNumber) : bool := Z.gtb (bn_val x) (bn_val y).

(** ** The bridge *)

(** Lines 58-67: [createTransaction()], a new draft. *)
Definition createTransaction : M Transaction :=
  amount ← BigNumber_of 0;
  r ← fresh;
  mret (mkTransaction r "tezos" "send" amount None None None "" None
                      None None).

Section Bridge.
Variable X : Collaborators.

(** *** estimateGasLimitAndStorage *)

Definition estimateGasLimitAndStorage_key (a : Account) (addr : string)
  : string :=
  acc_id a +:+ "|" +:+ addr.

Definition estimateGasLimitAndStorage_compute (account : Account)
    (addr : string) : M GasAndStorage :=
  external (call_asTezosLikeAccount account)
           (fun h => asTezosLikeAccount X h account);;
  gasLimit ← external (call_getEstimatedGasLimit account addr)
                      (fun h => getEstimatedGasLimit X h account addr);
  storage ← external (call_getStorage account addr)
                     (fun h => getStorage X h account addr);
  mret (mkGasAndStorage gasLimit storage).

Definition estimateGasLimitAndStorage (account : Account) (addr : string)
  : M GasAndStorage :=
  record (call_estimateGasLimitAndStorage account addr);;
  makeLRUCache (cache_max X) gasSlot
    estimateGasLimitAndStorage_compute
    estimateGasLimitAndStorage_key account addr.

(** *** calculateFees *)

Definition await_validateRecipient (c : Currency) (recipient : string)
  : M RecipientValidation :=
  external (call_validateRecipient c recipient)
           (fun h => Ok (validateRecipient X h c recipient)).

Definition calculateFees_compute (a : Account) (t : Transaction)
  : M BigNumber :=
  v ← await_validateRecipient (acc_currency a) (t_recipient t);
  match recipientError v with
  | Some e => throw e
  | None =>
      external (call_getFeesForTransaction a t)
               (fun h => getFeesForTransaction X h a t)
  end.

Definition calculateFees_key (a : Account) (t : Transaction) : string :=
  acc_id a +:+ "_" +:+ BigNumber_toString X (bn_val (t_amount t))
    +:+ "_" +:+ t_recipient t
    +:+ "_" +:+ match t_gasLimit t with
                | Some g => BigNumber_toString X (bn_val g)
                | None => ""
                end
    +:+ "_" +:+ match t_fees t with
                | Some f => BigNumber_toString X (bn_val f)
                | None => ""
                end
    +:+ "_" +:+ match t_storageLimit t with
                | Some s => BigNumber_toString X (bn_val s)
                | None => ""
                end.

Definition calculateFees (a : Account) (t : Transaction) : M BigNumber :=
  record (call_calculateFees a t);;
  makeLRUCache (cache_max X) feesSlot
    calculateFees_compute calculateFees_key a t.

(** *** getTransactionStatus *)

(** Lines 81-83: the sub-account the draft names, if the account has
    it. *)
Definition getTransactionStatus_subAcc (a : Account) (t : Transaction)
  : option SubAccount :=
  if negb (toBoolean (t_subAccountId t)) then None
  else
    match acc_subAccounts a with
    | Some subAccounts =>
        List.find (fun ta => strict_eq (Some (sub_id ta)) (t_subAccountId t))
                  subAccounts
    | None => None
    end.

(** Line 84: [subAcc || a]. *)
Definition getTransactionStatus_account (a : Account) (t : Transaction)
  : AccountLike :=
  match getTransactionStatus_subAcc a t with
  | Some subAcc => Child subAcc
  | None => Parent a
  end.

Definition getTransactionStatus (a : Account) (t : Transaction)
  : M TransactionStatus :=
  let errors : gmap string JsError := ∅ in
  let warnings : gmap string JsError := ∅ in
  let account := getTransactionStatus_account a t in
  estimatedFees ← BigNumber_of 0;
  '(estimatedFees, errors) ←
    (if negb (toBoolean (t_fees t)) then
       mret (estimatedFees, <["fees" := FeeNotLoaded]> errors)
     else
       p ← settle (calculateFees a t);
       match p with
       | Ok f => mret (f, errors)
       | Throw error =>
           if String.eqb (err_name error) "NotEnoughBalance"
           then mret (estimatedFees, <["amount" := error]> errors)
           else mret (estimatedFees, <["transaction" := error]> errors)
       end);
  totalSpent ←
    (if negb (toBoolean (t_useAllAmount t))
     then plus (t_amount t) estimatedFees
     else mret (balance account));
  amount ←
    (if toBoolean (t_useAllAmount t)
     then minus (balance account) estimatedFees
     else mret (t_amount t));
  feeTooHigh ←
    (if gt amount 0
     then x ← times estimatedFees 10; mret (gt_bn x amount)
     else mret false);
  let warnings :=
    if (feeTooHigh : bool) then <["feeTooHigh" := FeeTooHigh]> warnings
    else warnings in
  v ← await_validateRecipient (acc_currency a) (t_recipient t);
  let errors :=
    match recipientError v with
    | Some e => <["recipient" := e]> errors
    | None => errors
    end in
  let warnings :=
    match recipientWarning v with
    | Some e => <["recipient" := e]> warnings
    | None => warnings
    end in
  mret (mkStatus errors warnings estimatedFees amount totalSpent
                 (toBoolean (t_subAccountId t))).

(** *** prepareTransaction *)

(** Lines 142-147: the network info of the draft, fetched when the draft
    has none. *)
Definition prepareTransaction_networkInfo (a : Account) (t : Transaction)
  : M NetworkInfo :=
  match t_networkInfo t with
  | Some networkInfo => mret networkInfo
  | None =>
      ni ← external (call_getAccountNetworkInfo a)
                    (fun h => getAccountNetworkInfo X h a);
      invariant (strict_eq (ni_family ni) "tezos")
                "tezos networkInfo expected";;
      mret ni
  end.

(** Lines 149-158: the gas limit and the storage limit, estimated when
    one of them is missing and the recipient is there and valid. *)
Definition prepareTransaction_limits (a : Account) (t : Transaction)
  : M (option BigNumber * option BigNumber) :=
  if (negb (toBoolean (t_gasLimit t))
      || negb (toBoolean (t_storageLimit t)))
     && toBoolean (t_recipient t)
  then
    v ← await_validateRecipient (acc_currency a) (t_recipient t);
    if negb (toBoolean (recipientError v)) then
      r ← estimateGasLimitAndStorage a (t_recipient t);
      mret (Some (r_gasLimit r), Some (r_storage r))
    else mret (t_gasLimit t, t_storageLimit t)
  else mret (t_gasLimit t, t_storageLimit t).

Definition prepareTransaction (a : Account) (t : Transaction)
  : M Transaction :=
  networkInfo ← prepareTransaction_networkInfo a t;
  '(gasLimit, storageLimit) ← prepareTransaction_limits a t;
  let fees :=
    if toBoolean (t_fees t) then t_fees t
    else Some (ni_fees networkInfo) in
  let recipient :=
    if toBoolean (t_subAccountId t) && negb (toBoolean (t_recipient t))
    then acc_freshAddress a
    else t_recipient t in
  if (t_networkInfo t !== Some networkInfo)
     || (t_gasLimit t !== gasLimit)
     || (t_storageLimit t !== storageLimit)
     || (t_fees t !== fees)
     || (t_recipient t !== recipient)
  then
    r ← fresh;
    mret (mkTransaction r (t_family t) (t_mode t) (t_amount t) fees
                        gasLimit storageLimit recipient (Some networkInfo)
                        (t_subAccountId t) (t_useAllAmount t))
  else mret t.
End Bridge.

(** ** updateTransaction *)

(** A patch: for each property of a draft, whether the patch has it and,
    if so, its value.  A patch may well set a nullable property to
    [null]. *)
Record Patch : Type := mkPatch {
  p_family : option string;
  p_mode : option string;
  p_amount : option BigNumber;
  p_fees : option (option BigNumber);
  p_gasLimit : option (option BigNumber);
  p_storageLimit : option (option BigNumber);
  p_recipient : option string;
  p_networkInfo : option (option NetworkInfo);
  p_subAccountId : option (option string);
  p_useAllAmount : option (option bool)
}.

(** [{}]. *)
Definition empty_patch : Patch :=
  mkPatch None None None None None None None None None None.

(** Line 69: [({ ...t, ...patch })], a new object. *)
Definition updateTransaction (t : Transaction) (patch : Patch)
  : M Transaction :=
  r ← fresh;
  mret (mkTransaction r
          (default (t_family t) (p_family patch))
          (default (t_mode t) (p_mode patch))
          (default (t_amount t) (p_amount patch))
          (default (t_fees t) (p_fees patch))
          (default (t_gasLimit t) (p_gasLimit patch))
          (default (t_storageLimit t) (p_storageLimit patch))
          (default (t_recipient t) (p_recipient patch))
          (default (t_networkInfo t) (p_networkInfo patch))
          (default (t_subAccountId t) (p_subAccountId patch))
          (default (t_useAllAmount t) (p_useAllAmount patch))).

(** [{ ...p1, ...p2 }]: the patch that does what [p1] then [p2] do. *)
Definition patch_then (p1 p2 : Patch) : Patch :=
  mkPatch
    (match p_family p2 with Some x => Some x | None => p_family p1 end)
    (match p_mode p2 with Some x => Some x | None => p_mode p1 end)
    (match p_amount p2 with Some x => Some x | None => p_amount p1 end)
    (match p_fees p2 with Some x => Some x | None => p_fees p1 end)
    (match p_gasLimit p2 with Some x => Some x | None => p_gasLimit p1 end)
    (match p_storageLimit p2 with
     | Some x => Some x
     | None => p_storageLimit p1
     end)
    (match p_recipient p2 with Some x => Some x | None => p_recipient p1 end)
    (match p_networkInfo p2 with
     | Some x => Some x
     | None => p_networkInfo p1
     end)
    (match p_subAccountId p2 with
     | Some x => Some x
     | None => p_subAccountId p1
     end)
    (match p_useAllAmount p2 with
     | Some x => Some x
     | None => p_useAllAmount p1
     end).

(** Two drafts with the same properties: what [{ ...t }] keeps of [t],
    everything but the address. *)
Definition same_properties (t1 t2 : Transaction) : Prop :=
  t_family t1 = t_family t2 /\ t_mode t1 = t_mode t2 /\
  t_amount t1 = t_amount t2 /\ t_fees t1 = t_fees t2 /\
  t_gasLimit t1 = t_gasLimit t2 /\ t_storageLimit t1 = t_storageLimit t2 /\
  t_recipient t1 = t_recipient t2 /\ t_networkInfo t1 = t_networkInfo t2 /\
  t_subAccountId t1 = t_subAccountId t2 /\
  t_useAllAmount t1 = t_useAllAmount t2.

(** ** The operation of a broadcast transaction *)

(** The second source file ([families/tezos/libcore-signAndBroadcast]):
    once a transaction is signed, it is broadcast and the operation the
    wallet shows for it is built. *)
Module Broadcast.

(** Handles on objects of the chain engine. *)
Record CoreAmount : Type := mkCoreAmount { amount_handle : nat }.

(** [CoreTezosLikeAddress]: [toBase58()]. *)
Record CoreAddress : Type := mkCoreAddress {
  address_handle : nat;
  toBase58 : result string
}.

(** The built transaction and what its getters settle to. *)
Record CoreTezosLikeTransaction : Type := mkBuilded {
  getReceiver : result CoreAddress;
  getSender : result CoreAddress;
  getFees : result CoreAmount;
  getGasLimit : result CoreAmount
}.

Record CoreTezosLikeAccount : Type := mkTezosLikeAccount {
  broadcastRawTransaction : string -> result string
}.

Record CoreAccount : Type := mkCoreAccount {
  as_TezosLikeAccount : result CoreTezosLikeAccount
}.

(** What the function imports: [getEnv], as the truthiness of the value
    of a variable, [libcoreAmountToBigNumber], as the value of the number
    it resolves to, and the clock [new Date()] reads, in milliseconds. *)
Record Env : Type := mkEnv {
  getEnv : string -> bool;
  libcoreAmountToBigNumber : CoreAmount -> result Z;
  clock : Z
}.

(** [Operation] of [types]. *)
Record Operation : Type := mkOperation {
  op_id : string;
  op_hash : string;
  op_type : string;
  op_value : BigNumber;
  op_fee : BigNumber;
  op_blockHash : option string;
  op_blockHeight : option Z;
  op_senders : list string;
  op_recipients : list string;
  op_accountId : string;
  op_date : Z;
  op_extra : gmap string string
}.

(** The calls the function makes. *)
Inductive Event : Type :=
| ev_asTezosLikeAccount
| ev_getEnv (key : string)
| ev_broadcastRawTransaction (signedTransaction : string)
| ev_getReceiver
| ev_getSender
| ev_toBase58 (address : CoreAddress)
| ev_getFees
| ev_getGasLimit
| ev_libcoreAmountToBigNumber (raw : CoreAmount).

(** The calls made so far and the next free object address. *)
Record State : Type := mkState {
  events : list Event;
  next_address : nat
}.

Definition B (A : Type) : Type := State -> result A * State.

#[export] Instance B_ret : MRet B := fun A a s => (Ok a, s).
#[export] Instance B_bind : MBind B := fun A C f m s =>
  match m s with
  | (Ok a, s') => f a s'
  | (Throw e, s') => (Throw e, s')
  end.

(** A call: it is recorded and settles as given. *)
Definition call {A} (ev : Event) (p : result A) : B A :=
  fun s => (p, mkState (events s ++ [ev]) (next_address s)).

(** A new [BigNumber]. *)
Definition new_BigNumber (z : Z) : B BigNumber :=
  fun s => (Ok (mkBN (next_address s) z),
            mkState (events s) (S (next_address s))).

(** Lines 9-57. *)
Definition tezos (E : Env) (account : Account) (signedTransaction : string)
    (builded : CoreTezosLikeTransaction) (coreAccount : CoreAccount)
    (transaction : Transaction) : B Operation :=
  let id := acc_id account in
  let balance := acc_balance account in
  tezosLikeAccount ← call ev_asTezosLikeAccount
                          (as_TezosLikeAccount coreAccount);
  disabled ← call (ev_getEnv "DISABLE_TRANSACTION_BROADCAST")
                  (Ok (getEnv E "DISABLE_TRANSACTION_BROADCAST"));
  txHash ←
    (if (disabled : bool) then mret ""
     else call (ev_broadcastRawTransaction signedTransaction)
               (broadcastRawTransaction tezosLikeAccount signedTransaction));
  receiver ← call ev_getReceiver (getReceiver builded);
  sender ← call ev_getSender (getSender builded);
  receiver58 ← call (ev_toBase58 receiver) (toBase58 receiver);
  let recipients := [receiver58] in
  sender58 ← call (ev_toBase58 sender) (toBase58 sender);
  let senders := [sender58] in
  feesRaw ← call ev_getFees (getFees builded);
  fees ← call (ev_libcoreAmountToBigNumber feesRaw)
              (libcoreAmountToBigNumber E feesRaw);
  fees ← new_BigNumber fees;
  gasLimitRaw ← call ev_getGasLimit (getGasLimit builded);
  gasLimit ← call (ev_libcoreAmountToBigNumber gasLimitRaw)
                  (libcoreAmountToBigNumber E gasLimitRaw);
  gasLimit ← new_BigNumber gasLimit;
  fee ← new_BigNumber (bn_val fees * bn_val gasLimit);
  let accountId :=
    match t_subAccountId transaction with
    | Some subAccountId =>
        if toBoolean subAccountId then subAccountId else id
    | None => id
    end in
  value ←
    (if toBoolean (t_useAllAmount transaction) then mret balance
     else new_BigNumber (bn_val (t_amount transaction) + bn_val fee));
  mret (mkOperation (accountId +:+ "-" +:+ txHash +:+ "-OUT") txHash "OUT"
                    value fee None None senders recipients accountId
                    (clock E) ∅).

(** The calls that read the built transaction. *)
Definition reads_builded (ev : Event) : bool :=
  match ev with
  | ev_getReceiver | ev_getSender | ev_toBase58 _ | ev_getFees
  | ev_getGasLimit | ev_libcoreAmountToBigNumber _ => true
  | _ => false
  end.

Definition is_broadcast (ev : Event) : bool :=
  match ev with
  | ev_broadcastRawTransaction _ => true
  | _ => false
  end.
End Broadcast.

(** ** Vocabulary of the statements *)

(** What the claims say about a draft that names a sub-account: the
    identifier is there and is not the empty string. *)
Definition targets_subAccount (t : Transaction) : Prop :=
  exists sid, t_subAccountId t = Some sid /\ sid <> "".

(** The world once one object has been allocated. *)
Definition allocated (w : World) : World :=
  mkWorld (history w) (S (next_ref w)) (gasCache w) (feesCache w).

(** The calls of the first step of [prepareTransaction]. *)
Definition is_networkInfo_call (c : Call) : bool :=
  match c with
  | call_getAccountNetworkInfo _ | call_invariant _ _ => true
  | _ => false
  end.

(** The five fields of a draft that the fee calculator's key is made of,
    and what each holds: a number, a text, or nothing. *)
Inductive KeyField : Type :=
| key_amount
| key_recipient
| key_gasLimit
| key_storageLimit
| key_fees.

Inductive FieldValue : Type :=
| absent
| number (z : Z)
| text (s : string).

Definition number_or_absent (o : option BigNumber) : FieldValue :=
  match o with
  | Some x => number (bn_val x)
  | None => absent
  end.

Definition key_field (f : KeyField) (t : Transaction) : FieldValue :=
  match f with
  | key_amount => number (bn_val (t_amount t))
  | key_recipient => text (t_recipient t)
  | key_gasLimit => number_or_absent (t_gasLimit t)
  | key_storageLimit => number_or_absent (t_storageLimit t)
  | key_fees => number_or_absent (t_fees t)
  end.

#[export] Instance KeyField_eq_dec : EqDecision KeyField.
Proof. solve_decision. Defined.

(** How the key writes a field. *)
Definition segment (toString : Z -> string) (v : FieldValue) : string :=
  match v with
  | absent => ""
  | number z => toString z
  | text s => s
  end.

(** Two drafts that differ on field [f] and agree on the four others. *)
Definition differ_only_on (f : KeyField) (t1 t2 : Transaction) : Prop :=
  key_field f t1 <> key_field f t2 /\
  forall g, g <> f -> key_field g t1 = key_field g t2.

(** How lines 86-104 of [getTransactionStatus] end: the estimated fees, the
    errors recorded so far and the world, from the world the status was
    asked in. *)
Inductive fees_outcome (X : Collaborators) (a : Account) (t : Transaction)
    (w : World) : BigNumber -> gmap string JsError -> World -> Prop :=
| fees_not_loaded :
    t_fees t = None ->
    fees_outcome X a t w (mkBN (next_ref w) 0)
                 (<["fees" := FeeNotLoaded]> ∅) (allocated w)
| fees_priced f w2 :
    is_Some (t_fees t) ->
    calculateFees X a t (allocated w) = (Ok f, w2) ->
    fees_outcome X a t w f ∅ w2
| fees_not_enough_balance e w2 :
    is_Some (t_fees t) ->
    calculateFees X a t (allocated w) = (Throw e, w2) ->
    err_name e = "NotEnoughBalance" ->
    fees_outcome X a t w (mkBN (next_ref w) 0) (<["amount" := e]> ∅) w2
| fees_other_failure e w2 :
    is_Some (t_fees t) ->
    calculateFees X a t (allocated w) = (Throw e, w2) ->
    err_name e <> "NotEnoughBalance" ->
    fees_outcome X a t w (mkBN (next_ref w) 0)
                 (<["transaction" := e]> ∅) w2.

(** The test of lines 167-173, on two drafts: none of the five fields a
    preparation resolves differs, by [!==], from one to the other. *)
Definition unchanged (t t' : Transaction) : bool :=
  strict_eq (t_networkInfo t) (t_networkInfo t')
  && strict_eq (t_gasLimit t) (t_gasLimit t')
  && strict_eq (t_storageLimit t) (t_storageLimit t')
  && strict_eq (t_fees t) (t_fees t')
  && strict_eq (t_recipient t) (t_recipient t').

(** The calls that validate a recipient or estimate gas and storage. *)
Definition is_estimation_call (c : Call) : bool :=
  match c with
  | call_validateRecipient _ _ | call_estimateGasLimitAndStorage _ _
  | call_asTezosLikeAccount _ | call_getEstimatedGasLimit _ _
  | call_getStorage _ _ => true
  | _ => false
  end.

(** The calls an evaluation of the status may make. *)
Definition is_status_call (c : Call) : bool :=
  match c with
  | call_calculateFees _ _ | call_validateRecipient _ _
  | call_getFeesForTransaction _ _ => true
  | _ => false
  end.

(** A text without a given character. *)
Definition without (c : Ascii.ascii) (s : string) : Prop :=
  ~ In c (String.list_ascii_of_string s).

(** ** A sample wallet *)

Module Sample.
(** Decimal notation, which is what [toString] gives for the integers
    a wallet holds. *)
Definition decimal (z : Z) : string :=
  DecimalString.NilZero.string_of_int (Z.to_int z).

Definition tezos_info : NetworkInfo :=
  mkNetworkInfo 1 "tezos" (mkBN 2 1420).
Definition bitcoin_info : NetworkInfo :=
  mkNetworkInfo 6 "bitcoin" (mkBN 7 10).

Definition RecipientRequired : JsError := mkError "RecipientRequired" "".
Definition InvalidAddress : JsError :=
  mkError "InvalidAddress" "InvalidAddress".
Definition NotEnoughBalance : JsError :=
  mkError "NotEnoughBalance" "NotEnoughBalance".
Definition Unreachable : JsError := mkError "NetworkDown" "NetworkDown".

(** An address is accepted when it starts with [tz]. *)
Definition validate (h : list Call) (c : Currency) (r : string)
  : RecipientValidation :=
  if String.eqb r "" then mkValidation (Some RecipientRequired) None
  else if String.prefix "tz" r then mkValidation None None
  else mkValidation (Some InvalidAddress) None.

Definition price (h : list Call) (a : Account) (t : Transaction)
  : result BigNumber :=
  if Z.ltb (bn_val (acc_balance a)) (bn_val (t_amount t))
  then Throw NotEnoughBalance
  else Ok (mkBN 5 1420).

(** A node that answers. *)
Definition engine : Collaborators :=
  mkCollaborators
    (fun _ _ => Ok tezos_info)
    validate
    (fun _ _ => Ok tt)
    (fun _ _ _ => Ok (mkBN 3 10300))
    (fun _ _ _ => Ok (mkBN 4 300))
    price
    decimal
    100.

(** A node that cannot estimate gas. *)
Definition engine_down : Collaborators :=
  mkCollaborators
    (fun _ _ => Ok tezos_info)
    validate
    (fun _ _ => Ok tt)
    (fun _ _ _ => Throw Unreachable)
    (fun _ _ _ => Ok (mkBN 4 300))
    (fun _ _ _ => Throw Unreachable)
    decimal
    100.

(** A node of another family. *)
Definition engine_bitcoin : Collaborators :=
  mkCollaborators
    (fun _ _ => Ok bitcoin_info)
    validate
    (fun _ _ => Ok tt)
    (fun _ _ _ => Ok (mkBN 3 10300))
    (fun _ _ _ => Ok (mkBN 4 300))
    price
    decimal
    100.

Definition xtz : Currency := mkCurrency "tezos".

Definition alice : Account :=
  mkAccount "libcore:1:tezos:xpub:" (mkBN 10 5000000) xtz
            (Some [mkSubAccount "KT1sub" (mkBN 11 700000)]) "tz1alice".

Definition w0 : World := mkWorld [] 1000 [] [].

(** A node that prices every transaction at [fee]. *)
Definition engine_priced (fee : Z) : Collaborators :=
  mkCollaborators
    (fun _ _ => Ok tezos_info)
    validate
    (fun _ _ => Ok tt)
    (fun _ _ _ => Ok (mkBN 3 10300))
    (fun _ _ _ => Ok (mkBN 4 300))
    (fun _ _ _ => Ok (mkBN 5 fee))
    decimal
    100.

(** A prepared send of 100. *)
Definition hundred : Transaction :=
  mkTransaction 35 "tezos" "send" (mkBN 36 100) (Some (mkBN 2 1420))
                (Some (mkBN 3 10300)) (Some (mkBN 4 300)) "tz1bob"
                (Some tezos_info) None None.

(** Everything the sub-account holds. *)
Definition send_all_sub : Transaction :=
  mkTransaction 37 "tezos" "send" (mkBN 38 0) (Some (mkBN 2 1420))
                (Some (mkBN 3 10300)) (Some (mkBN 4 300)) "tz1bob"
                (Some tezos_info) (Some "KT1sub") (Some true).

(** What a settled report says. *)
Definition warning_of (p : result TransactionStatus * World) (k : string)
  : option JsError :=
  match fst p with
  | Ok st => warnings st !! k
  | Throw _ => None
  end.

Definition totals_of (p : result TransactionStatus * World)
  : option (Z * Z * Z) :=
  match fst p with
  | Ok st =>
      Some (bn_val (estimatedFees st), bn_val (amount st),
            bn_val (totalSpent st))
  | Throw _ => None
  end.

(** A send of 100000 to [tz1bob], not prepared yet. *)
Definition to_bob : Transaction :=
  mkTransaction 22 "tezos" "send" (mkBN 23 100000) None None None "tz1bob"
                None None None.

(** A send of twice as much. *)
Definition to_bob_more : Transaction :=
  mkTransaction 33 "tezos" "send" (mkBN 34 200000) None None None "tz1bob"
                None None None.

(** The same send, prepared. *)
Definition to_bob_prepared : Transaction :=
  mkTransaction 24 "tezos" "send" (mkBN 23 100000) (Some (mkBN 2 1420))
                (Some (mkBN 3 10300)) (Some (mkBN 4 300)) "tz1bob"
                (Some tezos_info) None None.

(** More than the account holds. *)
Definition too_much : Transaction :=
  mkTransaction 25 "tezos" "send" (mkBN 26 9000000) (Some (mkBN 2 1420))
                (Some (mkBN 3 10300)) (Some (mkBN 4 300)) "tz1bob"
                (Some tezos_info) None None.

(** Everything the account holds. *)
Definition send_all : Transaction :=
  mkTransaction 27 "tezos" "send" (mkBN 28 0) (Some (mkBN 2 1420))
                (Some (mkBN 3 10300)) (Some (mkBN 4 300)) "tz1bob"
                (Some tezos_info) None (Some true).

(** A send from the sub-account, no recipient typed in. *)
Definition from_sub : Transaction :=
  mkTransaction 29 "tezos" "send" (mkBN 30 1000) None None None ""
                None (Some "KT1sub") None.

(** A send that names a sub-account the account does not have. *)
Definition from_unknown_sub : Transaction :=
  mkTransaction 31 "tezos" "send" (mkBN 32 0) None None None "tz1bob"
                (Some tezos_info) (Some "KT1other") (Some true).
(** The send to [tz1bob], prepared once. *)
Definition to_bob_once : Transaction :=
  mkTransaction 1000 "tezos" "send" (mkBN 23 100000) (Some (mkBN 2 1420))
                (Some (mkBN 3 10300)) (Some (mkBN 4 300)) "tz1bob"
                (Some tezos_info) None None.

(** The draft of the sub-account, prepared once. *)
Definition from_sub_prepared : Transaction :=
  mkTransaction 1000 "tezos" "send" (mkBN 30 1000) (Some (mkBN 2 1420))
                None None "tz1alice" (Some tezos_info) (Some "KT1sub")
                None.

(** A draft with a gas limit of its own and no storage limit. *)
Definition own_gas : Transaction :=
  mkTransaction 39 "tezos" "send" (mkBN 40 100000) (Some (mkBN 2 1420))
                (Some (mkBN 41 99999)) None "tz1bob" (Some tezos_info)
                None None.
(** A prepared send to an address the validator rejects. *)
Definition to_nobody : Transaction :=
  mkTransaction 42 "tezos" "send" (mkBN 43 100000) (Some (mkBN 2 1420))
                (Some (mkBN 3 10300)) (Some (mkBN 4 300)) "nobody"
                (Some tezos_info) None None.

(** A node that broadcasts, and the same with broadcasting disabled. *)
Definition node : Broadcast.Env :=
  Broadcast.mkEnv (fun _ => false)
                  (fun raw => Ok (Z.of_nat (Broadcast.amount_handle raw)))
                  1572000000000.

Definition node_dry : Broadcast.Env :=
  Broadcast.mkEnv (fun _ => true)
                  (fun raw => Ok (Z.of_nat (Broadcast.amount_handle raw)))
                  1572000000000.

(** A built transaction from [tz1alice] to [tz1bob], fees 2, gas limit
    1000. *)
Definition built : Broadcast.CoreTezosLikeTransaction :=
  Broadcast.mkBuilded
    (Ok (Broadcast.mkCoreAddress 1 (Ok "tz1bob")))
    (Ok (Broadcast.mkCoreAddress 2 (Ok "tz1alice")))
    (Ok (Broadcast.mkCoreAmount 2))
    (Ok (Broadcast.mkCoreAmount 1000)).

(** The same, whose receiver cannot be read. *)
Definition built_broken : Broadcast.CoreTezosLikeTransaction :=
  Broadcast.mkBuilded
    (Throw Unreachable)
    (Ok (Broadcast.mkCoreAddress 2 (Ok "tz1alice")))
    (Ok (Broadcast.mkCoreAmount 2))
    (Ok (Broadcast.mkCoreAmount 1000)).

Definition accepting : Broadcast.CoreTezosLikeAccount :=
  Broadcast.mkTezosLikeAccount (fun signed => Ok ("oo" +:+ signed)).

Definition rejecting : Broadcast.CoreTezosLikeAccount :=
  Broadcast.mkTezosLikeAccount (fun _ => Throw Unreachable).

Definition core : Broadcast.CoreAccount :=
  Broadcast.mkCoreAccount (Ok accepting).

Definition core_rejecting : Broadcast.CoreAccount :=
  Broadcast.mkCoreAccount (Ok rejecting).

Definition s0 : Broadcast.State := Broadcast.mkState [] 2000.
End Sample.

(** ** Tactics *)

(** Unfolds the monad and runs what can be run. *)
Ltac step :=
  repeat progress
    (unfold mbind, M_bind, mret, M_ret, throw, settle, record, external,
            fresh, BigNumber_of, plus, minus, times, invariant,
            await_validateRecipient; simpl).

(** Runs the operation builder, one collaborator after the other. *)
Ltac run_tezos :=
  unfold Broadcast.tezos, mbind, Broadcast.B_bind, Broadcast.call,
         Broadcast.new_BigNumber, mret, Broadcast.B_ret;
  simpl;
  repeat match goal with
         | |- context [match ?x with Ok _ => _ | Throw _ => _ end] =>
             destruct x eqn:?; simpl; try discriminate
         | |- context [if ?x then _ else _] => destruct x eqn:?; simpl
         end.

#[local] Arguments gt : simpl never.
#[local] Arguments gt_bn : simpl never.

(** * Truthiness and strict equality *)

Lemma toBoolean_subAccountId t :
  toBoolean (t_subAccountId t) = true <-> targets_subAccount t.
Proof.
  unfold targets_subAccount, toBoolean, option_truthy, toBoolean, string_truthy.
  destruct (t_subAccountId t) as [sid|]; split.
  - intros H. exists sid. split; [done|]. intros ->. discriminate.
  - intros (sid' & [= <-] & Hne).
    destruct (String.eqb_spec sid ""); [contradiction|done].
  - discriminate.
  - intros (sid' & [=] & _).
Qed.

Lemma toBoolean_string (s : string) : toBoolean s = false <-> s = "".
Proof.
  unfold toBoolean, string_truthy.
  destruct (String.eqb_spec s ""); split; (done || discriminate).
Qed.

Lemma toBoolean_useAllAmount t :
  toBoolean (t_useAllAmount t) = true <-> t_useAllAmount t = Some true.
Proof.
  unfold toBoolean, option_truthy, toBoolean, bool_truthy.
  destruct (t_useAllAmount t) as [[]|]; split; (done || discriminate).
Qed.

Lemma strict_eq_string_refl (s : string) : strict_eq s s = true.
Proof. apply String.eqb_refl. Qed.

(** * C1: a draft at a fixed point is returned as it is *)

(** C1. If the draft has its network info, its fees, its gas limit and its
    storage limit, and is not a sub-account draft with an empty recipient,
    then [prepareTransaction] resolves to the draft it was given, the very
    same object, without calling any collaborator: the world is left as it
    was. *)
Theorem prepareTransaction_fixed_point (X : Collaborators) (a : Account)
    (t : Transaction) (w : World) :
  is_Some (t_networkInfo t) ->
  is_Some (t_fees t) ->
  is_Some (t_gasLimit t) ->
  is_Some (t_storageLimit t) ->
  ~ (targets_subAccount t /\ t_recipient t = "") ->
  prepareTransaction X a t w = (Ok t, w).
Proof.
  intros [ni Hni] [f Hf] [g Hg] [s Hs] Hsub.
  unfold prepareTransaction, prepareTransaction_networkInfo,
    prepareTransaction_limits.
  rewrite Hni, Hf, Hg, Hs. step.
  assert (toBoolean (t_subAccountId t) && negb (toBoolean (t_recipient t))
          = false) as ->.
  { apply andb_false_iff.
    destruct (toBoolean (t_subAccountId t)) eqn:Hid; [right|by left].
    apply negb_false_iff, not_false_iff_true. intros Hr.
    apply Hsub. split; [by apply toBoolean_subAccountId|].
    by apply toBoolean_string. }
  rewrite strict_eq_string_refl.
  unfold strict_eq, option_strict_eq, strict_eq, NetworkInfo_strict_eq,
    BigNumber_strict_eq.
  by rewrite !Nat.eqb_refl.
Qed.

Lemma prepareTransaction_fixed_point_witness :
  prepareTransaction Sample.engine Sample.alice Sample.to_bob_prepared
                     Sample.w0
  = (Ok Sample.to_bob_prepared, Sample.w0).
Proof.
  apply prepareTransaction_fixed_point; simpl; try by eexists.
  intros [_ [=]].
Defined.

(** * The shape of a status report *)

(** Allocating an object changes nothing to what the fee calculator does:
    it reads the history and its cache only. *)
Lemma calculateFees_allocated X a t w :
  calculateFees X a t (allocated w)
  = (fst (calculateFees X a t w), allocated (snd (calculateFees X a t w))).
Proof.
  unfold calculateFees, makeLRUCache, calculateFees_compute, allocated.
  step.
  destruct (cache_get _ (feesCache w)) as [p|]; [done|].
  destruct (recipientError _) as [e|]; [done|].
  by destruct (getFeesForTransaction _ _ _ _).
Qed.

(** [getTransactionStatus] always resolves.  Its report is made of the
    outcome of the fee step, of the arithmetic on it, and of the answer of
    the recipient validator. *)
Lemma getTransactionStatus_shape X a t w :
  exists ef errs0 w2 st w',
    fees_outcome X a t w ef errs0 w2 /\
    getTransactionStatus X a t w = (Ok st, w') /\
    estimatedFees st = ef /\
    (toBoolean (t_useAllAmount t) = false ->
       bn_val (totalSpent st) = bn_val (t_amount t) + bn_val ef /\
       amount st = t_amount t) /\
    (toBoolean (t_useAllAmount t) = true ->
       totalSpent st = balance (getTransactionStatus_account a t) /\
       bn_val (amount st)
       = bn_val (balance (getTransactionStatus_account a t)) - bn_val ef) /\
    warnings st !! "feeTooHigh"
    = (if gt (amount st) 0 && Z.gtb (bn_val ef * 10) (bn_val (amount st))
       then Some FeeTooHigh else None) /\
    (forall k, k <> "recipient" -> errors st !! k = errs0 !! k) /\
    errors st !! "recipient"
    = recipientError (validateRecipient X (history w2) (acc_currency a)
                                        (t_recipient t)) /\
    recipientIsReadOnly st = toBoolean (t_subAccountId t) /\
    history w'
    = (history w2
       ++ [call_validateRecipient (acc_currency a) (t_recipient t)])%list /\
    feesCache w' = feesCache w2 /\ gasCache w' = gasCache w2.
Proof.
  assert (exists ef errs0 w2, fees_outcome X a t w ef errs0 w2)
    as (ef & errs0 & w2 & Hfees).
  { destruct (t_fees t) as [f|] eqn:Hf.
    - destruct (calculateFees X a t (allocated w)) as [[f'|e] w2] eqn:Hc.
      + do 3 eexists. by eapply fees_priced.
      + destruct (String.eqb_spec (err_name e) "NotEnoughBalance").
        * do 3 eexists. by eapply fees_not_enough_balance.
        * do 3 eexists. by eapply fees_other_failure.
    - do 3 eexists. by apply fees_not_loaded. }
  exists ef, errs0, w2.
  unfold getTransactionStatus. step.
  inversion Hfees
    as [Hf|f w2' [f0 Hf] Hc|e w2' [f0 Hf] Hc Hn|e w2' [f0 Hf] Hc Hn];
    subst; rewrite Hf; simpl; fold (allocated w); rewrite ?Hc; simpl.
  all: try (destruct (String.eqb_spec (err_name e) "NotEnoughBalance");
            try congruence; [idtac]); simpl.
  all: destruct (toBoolean (t_useAllAmount t)) eqn:Hu; step.
  all: match goal with
       |- context [gt ?x 0] => destruct (gt x 0) eqn:Hgt
       end; step.
  all: match goal with
       |- context [validateRecipient _ ?h ?c ?r] =>
         destruct (validateRecipient _ h c r) as [[re|] [rw|]] eqn:Hv
       end; simpl.
  all: do 2 eexists; (split; [exact Hfees|]); (split; [reflexivity|]); simpl.
  all: rewrite ?Hv; simpl.
  all: repeat match goal with |- _ /\ _ => split end; try done.
  all: try (intros _; split; [lia|done]).
  all: try (intros k Hk; by rewrite ?lookup_insert_ne by done).
  all: rewrite ?Hgt; unfold gt_bn; simpl.
  all: try match goal with
           |- context [Z.gtb ?x ?y] => destruct (Z.gtb x y)
           end.
  all: by simplify_map_eq.
Qed.

(** * C2: total spent and final amount *)

(** C2. [getTransactionStatus] resolves to a report in which, when
    [useAllAmount] is not set, [totalSpent] is the draft's amount plus the
    estimated fees and the final amount is the draft's amount; and in
    which, when [useAllAmount] is set, [totalSpent] is the balance of the
    resolved account and the final amount is that balance minus the
    estimated fees. *)
Theorem getTransactionStatus_totals (X : Collaborators) (a : Account)
    (t : Transaction) (w : World) :
  exists st w',
    getTransactionStatus X a t w = (Ok st, w') /\
    (t_useAllAmount t <> Some true ->
       bn_val (totalSpent st)
       = bn_val (t_amount t) + bn_val (estimatedFees st) /\
       amount st = t_amount t) /\
    (t_useAllAmount t = Some true ->
       totalSpent st = balance (getTransactionStatus_account a t) /\
       bn_val (amount st)
       = bn_val (balance (getTransactionStatus_account a t))
         - bn_val (estimatedFees st)).
Proof.
  destruct (getTransactionStatus_shape X a t w)
    as (ef & errs0 & w2 & st & w' & _ & Hrun & Hef & Hpart & Hall & _).
  exists st, w'. rewrite Hef. split; [done|]. split.
  - intros Hu. apply Hpart. apply not_true_is_false.
    by rewrite toBoolean_useAllAmount.
  - intros Hu. apply Hall. by apply toBoolean_useAllAmount.
Qed.

(** * C4: the fee-too-high warning *)

(** C4. The report carries the [feeTooHigh] warning exactly when the final
    amount is above zero and ten times the estimated fees are above the
    final amount; when ten times the estimated fees equal the final amount
    there is no warning. *)
Theorem feeTooHigh_iff (X : Collaborators) (a : Account) (t : Transaction)
    (w : World) :
  exists st w',
    getTransactionStatus X a t w = (Ok st, w') /\
    (is_Some (warnings st !! "feeTooHigh") <->
       0 < bn_val (amount st) /\
       bn_val (estimatedFees st) * 10 > bn_val (amount st)) /\
    (bn_val (estimatedFees st) * 10 = bn_val (amount st) ->
       warnings st !! "feeTooHigh" = None).
Proof.
  destruct (getTransactionStatus_shape X a t w)
    as (ef & errs0 & w2 & st & w' & _ & Hrun & Hef & _ & _ & Hwarn & _).
  exists st, w'. rewrite Hef, Hwarn. split; [done|].
  unfold gt.
  destruct (Z.gtb_spec (bn_val (amount st)) 0);
    destruct (Z.gtb_spec (bn_val ef * 10) (bn_val (amount st))); simpl.
  all: split; [split|].
  all: try (intros [? [=]]).
  all: try by (intros; lia).
  all: try by (intros _; eexists).
  all: intros; (done || lia).
Qed.

(** The fee step when the draft has no fees. *)
Lemma fees_outcome_missing X a t w ef errs0 w2 :
  t_fees t = None ->
  fees_outcome X a t w ef errs0 w2 ->
  ef = mkBN (next_ref w) 0 /\ errs0 = <["fees" := FeeNotLoaded]> ∅
  /\ w2 = allocated w.
Proof.
  intros Hf Hfees.
  inversion Hfees as [_|f w2' [f0 Hf']|e w2' [f0 Hf']|e w2' [f0 Hf']];
    subst; (congruence || done).
Qed.

(** The fee step when the fee calculator rejects. *)
Lemma fees_outcome_failure X a t w ef errs0 w2 e w3 :
  is_Some (t_fees t) ->
  calculateFees X a t w = (Throw e, w3) ->
  fees_outcome X a t w ef errs0 w2 ->
  ef = mkBN (next_ref w) 0 /\ w2 = allocated w3 /\
  errs0 = if String.eqb (err_name e) "NotEnoughBalance"
          then <["amount" := e]> ∅ else <["transaction" := e]> ∅.
Proof.
  intros [f Hf] Hfail Hfees.
  pose proof (calculateFees_allocated X a t w) as Halloc.
  rewrite Hfail in Halloc. simpl in Halloc.
  inversion Hfees as [Hf'|f' w2' _ Hc|e' w2' _ Hc Hn|e' w2' _ Hc Hn];
    try congruence.
  all: rewrite Halloc in Hc; injection Hc as <- <-.
  all: subst.
  all: destruct (String.eqb_spec (err_name e) "NotEnoughBalance"); done.
Qed.

(** * C5: a draft without fees *)

(** C5. When the draft has no fees, [getTransactionStatus] resolves to a
    report with the [FeeNotLoaded] error under [fees] and zero as estimated
    fees, and the totals are computed with that zero.  The only call it
    makes is the recipient validation of line 118: the fee calculator is
    not invoked and its cache is left as it was. *)
Theorem missing_fees_status (X : Collaborators) (a : Account)
    (t : Transaction) (w : World) :
  t_fees t = None ->
  exists st w',
    getTransactionStatus X a t w = (Ok st, w') /\
    errors st !! "fees" = Some FeeNotLoaded /\
    bn_val (estimatedFees st) = 0 /\
    (t_useAllAmount t <> Some true ->
       bn_val (totalSpent st) = bn_val (t_amount t) + 0 /\
       amount st = t_amount t) /\
    (t_useAllAmount t = Some true ->
       totalSpent st = balance (getTransactionStatus_account a t) /\
       bn_val (amount st)
       = bn_val (balance (getTransactionStatus_account a t)) - 0) /\
    history w'
    = (history w
       ++ [call_validateRecipient (acc_currency a) (t_recipient t)])%list /\
    feesCache w' = feesCache w.
Proof.
  intros Hf.
  destruct (getTransactionStatus_shape X a t w)
    as (ef & errs0 & w2 & st & w' & Hfees & Hrun & Hef & Hpart & Hall & _
        & Herr & _ & _ & Hhist & Hcache & _).
  destruct (fees_outcome_missing X a t w ef errs0 w2 Hf Hfees)
    as (-> & -> & ->).
  exists st, w'. split; [done|]. split; [by rewrite Herr|].
  split; [by rewrite Hef|]. split; [|split].
  - intros Hu. apply Hpart. apply not_true_is_false.
    by rewrite toBoolean_useAllAmount.
  - intros Hu. apply Hall. by apply toBoolean_useAllAmount.
  - done.
Qed.

Lemma missing_fees_status_witness :
  exists st w',
    getTransactionStatus Sample.engine Sample.alice Sample.to_bob Sample.w0
    = (Ok st, w') /\
    errors st !! "fees" = Some FeeNotLoaded /\
    bn_val (estimatedFees st) = 0 /\
    history w' = [call_validateRecipient Sample.xtz "tz1bob"].
Proof.
  destruct (missing_fees_status Sample.engine Sample.alice Sample.to_bob
                                Sample.w0 eq_refl)
    as (st & w' & Hrun & Herr & Hef & _ & _ & Hhist & _).
  by exists st, w'.
Defined.

(** * C6: a failure of the fee calculator *)

(** C6. When the draft has fees and the fee calculator rejects,
    [getTransactionStatus] still resolves to a report.  A rejection named
    [NotEnoughBalance] is recorded under [amount] and nothing under
    [transaction]; any other rejection is recorded under [transaction] and
    nothing under [amount].  The estimated fees of the report are zero. *)
Theorem fee_failure_attribution (X : Collaborators) (a : Account)
    (t : Transaction) (w : World) (e : JsError) (w2 : World) :
  is_Some (t_fees t) ->
  calculateFees X a t w = (Throw e, w2) ->
  exists st w',
    getTransactionStatus X a t w = (Ok st, w') /\
    bn_val (estimatedFees st) = 0 /\
    (err_name e = "NotEnoughBalance" ->
       errors st !! "amount" = Some e /\ errors st !! "transaction" = None) /\
    (err_name e <> "NotEnoughBalance" ->
       errors st !! "transaction" = Some e /\ errors st !! "amount" = None).
Proof.
  intros [f Hf] Hfail.
  destruct (getTransactionStatus_shape X a t w)
    as (ef & errs0 & w3 & st & w' & Hfees & Hrun & Hef & _ & _ & _
        & Herr & _).
  destruct (fees_outcome_failure X a t w ef errs0 w3 e w2
              (ex_intro _ f Hf) Hfail Hfees) as (-> & -> & ->).
  exists st, w'. split; [done|]. split; [by rewrite Hef|].
  rewrite !Herr by done.
  destruct (String.eqb_spec (err_name e) "NotEnoughBalance") as [Hn|Hn].
  all: split; intros Hname; try congruence.
  all: by simplify_map_eq.
Qed.

Lemma fee_failure_attribution_witness :
  exists st w',
    getTransactionStatus Sample.engine Sample.alice Sample.too_much Sample.w0
    = (Ok st, w') /\
    errors st !! "amount" = Some Sample.NotEnoughBalance /\
    errors st !! "transaction" = None.
Proof.
  destruct (fee_failure_attribution Sample.engine Sample.alice
              Sample.too_much Sample.w0 Sample.NotEnoughBalance
              (snd (calculateFees Sample.engine Sample.alice Sample.too_much
                                  Sample.w0)))
    as (st & w' & Hrun & _ & Hshort & _).
  - by eexists.
  - reflexivity.
  - exists st, w'. split; [done|]. by apply Hshort.
Defined.

(** * C10: a sub-account the account does not have *)

(** The sub-account is looked up by its identifier: none is found when no
    sub-account of the account carries it. *)
Lemma getTransactionStatus_account_parent a t :
  (forall subAccounts sub,
     acc_subAccounts a = Some subAccounts -> sub ∈ subAccounts ->
     Some (sub_id sub) <> t_subAccountId t) ->
  getTransactionStatus_account a t = Parent a.
Proof.
  intros Hnone.
  unfold getTransactionStatus_account, getTransactionStatus_subAcc.
  destruct (negb (toBoolean (t_subAccountId t))); [done|].
  destruct (acc_subAccounts a) as [l|] eqn:Hl; [|done].
  destruct (List.find _ l) as [s|] eqn:Hfind; [|done].
  apply List.find_some in Hfind as [Hin Heq].
  exfalso. apply (Hnone l s eq_refl); [by apply list_elem_of_In|].
  destruct (t_subAccountId t) as [sid|]; [|done].
  apply String.eqb_eq in Heq. by rewrite Heq.
Qed.

(** Every error of a report has one of three causes: the draft has no
    fees, the fee calculator rejected, or the recipient validator reported
    an error. *)
Lemma getTransactionStatus_errors X a t w st w' k e :
  getTransactionStatus X a t w = (Ok st, w') ->
  errors st !! k = Some e ->
  (k = "fees" /\ e = FeeNotLoaded /\ t_fees t = None)
  \/ ((k = "amount" \/ k = "transaction")
      /\ exists w2, calculateFees X a t (allocated w) = (Throw e, w2))
  \/ (k = "recipient"
      /\ exists h, recipientError (validateRecipient X h (acc_currency a)
                                                    (t_recipient t))
                   = Some e).
Proof.
  intros Hrun Hk.
  destruct (getTransactionStatus_shape X a t w)
    as (ef & errs0 & w2 & st0 & w0' & Hfees & Hrun0 & _ & _ & _ & _
        & Herr & Hrec & _).
  rewrite Hrun in Hrun0. injection Hrun0 as <- <-.
  destruct (decide (k = "recipient")) as [->|Hne].
  { right. right. split; [done|]. exists (history w2). by rewrite <- Hrec. }
  rewrite Herr in Hk by done.
  inversion Hfees as [Hf|f w3 _ Hc|e' w3 _ Hc Hn|e' w3 _ Hc Hn]; subst.
  - left. apply lookup_insert_Some in Hk as [[<- <-]|[_ Hk]]; [done|].
    by rewrite lookup_empty in Hk.
  - by rewrite lookup_empty in Hk.
  - right. left. apply lookup_insert_Some in Hk as [[<- <-]|[_ Hk]].
    + split; [by left|]. by exists w2.
    + by rewrite lookup_empty in Hk.
  - right. left. apply lookup_insert_Some in Hk as [[<- <-]|[_ Hk]].
    + split; [by right|]. by exists w2.
    + by rewrite lookup_empty in Hk.
Qed.

(** C10. When the draft names a sub-account and the account has no
    sub-account with that identifier, or no sub-accounts at all, the
    resolved account is the parent account.  [getTransactionStatus] still
    resolves to a report: in all-balance mode [totalSpent] is the parent's
    balance and the final amount is that balance minus the estimated fees;
    [recipientIsReadOnly] is true; and every error of the report comes from
    missing fees, from a rejection of the fee calculator or from the
    recipient validator, none from the unknown identifier. *)
Theorem unknown_subAccount_falls_back (X : Collaborators) (a : Account)
    (t : Transaction) (w : World) :
  targets_subAccount t ->
  (forall subAccounts sub,
     acc_subAccounts a = Some subAccounts -> sub ∈ subAccounts ->
     Some (sub_id sub) <> t_subAccountId t) ->
  getTransactionStatus_account a t = Parent a /\
  exists st w',
    getTransactionStatus X a t w = (Ok st, w') /\
    (t_useAllAmount t = Some true ->
       totalSpent st = acc_balance a /\
       bn_val (amount st)
       = bn_val (acc_balance a) - bn_val (estimatedFees st)) /\
    recipientIsReadOnly st = true /\
    (forall k e,
       errors st !! k = Some e ->
       (k = "fees" /\ e = FeeNotLoaded /\ t_fees t = None)
       \/ ((k = "amount" \/ k = "transaction")
           /\ exists w2, calculateFees X a t (allocated w) = (Throw e, w2))
       \/ (k = "recipient"
           /\ exists h,
                recipientError (validateRecipient X h (acc_currency a)
                                                  (t_recipient t))
                = Some e)).
Proof.
  intros Hsub Hnone.
  pose proof (getTransactionStatus_account_parent a t Hnone) as Hacc.
  split; [done|].
  destruct (getTransactionStatus_shape X a t w)
    as (ef & errs0 & w2 & st & w' & _ & Hrun & Hef & _ & Hall & _ & _ & _
        & Hro & _).
  exists st, w'. split; [done|]. split; [|split].
  - intros Hu. apply toBoolean_useAllAmount in Hu.
    rewrite Hacc in Hall. simpl in Hall. rewrite Hef. by apply Hall.
  - rewrite Hro. by apply toBoolean_subAccountId.
  - intros k e. by apply getTransactionStatus_errors with (w' := w').
Qed.

Lemma unknown_subAccount_falls_back_witness :
  exists st w',
    getTransactionStatus Sample.engine Sample.alice Sample.from_unknown_sub
                         Sample.w0
    = (Ok st, w') /\
    totalSpent st = mkBN 10 5000000 /\
    bn_val (amount st) = 5000000 - bn_val (estimatedFees st) /\
    recipientIsReadOnly st = true.
Proof.
  destruct (unknown_subAccount_falls_back Sample.engine Sample.alice
              Sample.from_unknown_sub Sample.w0)
    as (_ & st & w' & Hrun & Hall & Hro & _).
  - exists "KT1other". by split.
  - intros l sub [= <-] Hin. simpl.
    apply list_elem_of_singleton in Hin as ->. by simpl.
  - exists st, w'. destruct (Hall eq_refl) as [Htotal Hamount]. done.
Defined.

(** * The steps of a preparation *)

(** The first step when the draft has its network info: nothing is
    called. *)
Lemma prepareTransaction_networkInfo_present X a t w ni :
  t_networkInfo t = Some ni ->
  prepareTransaction_networkInfo X a t w = (Ok ni, w).
Proof. intros Hni. unfold prepareTransaction_networkInfo. by rewrite Hni. Qed.

(** The first step when it has none: the fetch, then the assertion on what
    was fetched. *)
Lemma prepareTransaction_networkInfo_absent X a t w :
  t_networkInfo t = None ->
  prepareTransaction_networkInfo X a t w
  = match getAccountNetworkInfo X (history w) a with
    | Ok ni =>
        (if strict_eq (ni_family ni) "tezos" then Ok ni
         else Throw (mkError "Invariant Violation"
                             "tezos networkInfo expected"),
         mkWorld (history w
                  ++ [call_getAccountNetworkInfo a;
                      call_invariant (strict_eq (ni_family ni) "tezos")
                                     "tezos networkInfo expected"])
                 (next_ref w) (gasCache w) (feesCache w))
    | Throw e =>
        (Throw e,
         mkWorld (history w ++ [call_getAccountNetworkInfo a])
                 (next_ref w) (gasCache w) (feesCache w))
    end.
Proof.
  intros Hni. unfold prepareTransaction_networkInfo. rewrite Hni. step.
  destruct (getAccountNetworkInfo X (history w) a) as [ni|e]; [|done].
  rewrite <- app_assoc. simpl.
  by destruct (strict_eq (ni_family ni) "tezos").
Qed.

(** A failure of the first step is the failure of the preparation. *)
Lemma prepareTransaction_networkInfo_throws X a t w e w1 :
  prepareTransaction_networkInfo X a t w = (Throw e, w1) ->
  prepareTransaction X a t w = (Throw e, w1).
Proof.
  intros Hni. unfold prepareTransaction, mbind, M_bind. by rewrite Hni.
Qed.

(** So is a failure of the second step. *)
Lemma prepareTransaction_limits_throws X a t w ni w1 e w2 :
  prepareTransaction_networkInfo X a t w = (Ok ni, w1) ->
  prepareTransaction_limits X a t w1 = (Throw e, w2) ->
  prepareTransaction X a t w = (Throw e, w2).
Proof.
  intros Hni Hlim. unfold prepareTransaction, mbind, M_bind.
  by rewrite Hni, Hlim.
Qed.

(** Once both steps have resolved, the preparation resolves: to the draft
    it was given, or to a new draft that carries what the steps found. *)
Lemma prepareTransaction_finish X a t w ni w1 gasLimit storageLimit w2 :
  prepareTransaction_networkInfo X a t w = (Ok ni, w1) ->
  prepareTransaction_limits X a t w1 = (Ok (gasLimit, storageLimit), w2) ->
  exists t' w',
    prepareTransaction X a t w = (Ok t', w') /\
    history w' = history w2 /\
    (t' = t \/
     t_gasLimit t' = gasLimit /\ t_storageLimit t' = storageLimit /\
     t_networkInfo t' = Some ni) /\
    t_recipient t'
    = (if toBoolean (t_subAccountId t) && negb (toBoolean (t_recipient t))
       then acc_freshAddress a else t_recipient t).
Proof.
  intros Hni Hlim. unfold prepareTransaction, mbind, M_bind.
  rewrite Hni, Hlim. step.
  match goal with |- context [if ?c then _ else _] => destruct c eqn:Hc end.
  - do 2 eexists. split; [reflexivity|]. simpl. split; [done|].
    split; [by right|done].
  - do 2 eexists. split; [reflexivity|]. split; [done|].
    split; [by left|].
    apply orb_false_iff in Hc as [_ Hc].
    apply negb_false_iff, String.eqb_eq in Hc. done.
Qed.

(** The second step never fetches the network info and never asserts. *)
Lemma prepareTransaction_limits_history X a t w :
  exists calls,
    history (snd (prepareTransaction_limits X a t w))
    = (history w ++ calls)%list /\
    forallb (fun c => negb (is_networkInfo_call c)) calls = true.
Proof.
  unfold prepareTransaction_limits.
  destruct (_ && _).
  - step. destruct (negb (toBoolean (recipientError _))).
    + unfold estimateGasLimitAndStorage, makeLRUCache,
        estimateGasLimitAndStorage_compute. step.
      destruct (cache_get _ (gasCache w)) as [[r|e]|]; simpl.
      1,2: (eexists; rewrite <- !app_assoc; split; [reflexivity|done]).
      destruct (asTezosLikeAccount _ _ _) as [[]|e]; simpl;
        [destruct (getEstimatedGasLimit _ _ _ _) as [g|e]; simpl;
         [destruct (getStorage _ _ _ _) as [s|e]; simpl|]|].
      all: eexists; rewrite <- !app_assoc; split; [reflexivity|done].
    + simpl. by eexists [_].
  - simpl. exists []. by rewrite app_nil_r.
Qed.

(** The calls of a preparation are those of its two steps. *)
Lemma prepareTransaction_history X a t w :
  history (snd (prepareTransaction X a t w))
  = match prepareTransaction_networkInfo X a t w with
    | (Ok _, w1) => history (snd (prepareTransaction_limits X a t w1))
    | (Throw _, w1) => history w1
    end.
Proof.
  unfold prepareTransaction, mbind, M_bind.
  destruct (prepareTransaction_networkInfo X a t w) as [[ni|e] w1]; [|done].
  destruct (prepareTransaction_limits X a t w1) as [[[gl sl]|e] w2]; [|done].
  step. by match goal with |- context [if ?c then _ else _] => destruct c end.
Qed.

(** * C8: the network info *)

(** C8. When the draft has no network info, the first call of
    [prepareTransaction] fetches it, and if the fetched network info is of
    another family than [tezos] the preparation is rejected with the
    invariant violation, after the fetch and the failed assertion and
    nothing else.  When the draft has its network info, the preparation
    neither fetches nor asserts. *)
Theorem networkInfo_fetch_and_assertion (X : Collaborators) (a : Account)
    (t : Transaction) (w : World) :
  (t_networkInfo t = None ->
     (exists calls,
        history (snd (prepareTransaction X a t w))
        = (history w ++ call_getAccountNetworkInfo a :: calls)%list) /\
     (forall ni,
        getAccountNetworkInfo X (history w) a = Ok ni ->
        ni_family ni <> "tezos" ->
        prepareTransaction X a t w
        = (Throw (mkError "Invariant Violation" "tezos networkInfo expected"),
           mkWorld (history w
                    ++ [call_getAccountNetworkInfo a;
                        call_invariant false "tezos networkInfo expected"])
                   (next_ref w) (gasCache w) (feesCache w)))) /\
  (is_Some (t_networkInfo t) ->
     exists calls,
       history (snd (prepareTransaction X a t w))
       = (history w ++ calls)%list /\
       forallb (fun c => negb (is_networkInfo_call c)) calls = true).
Proof.
  split.
  - intros Hni. split.
    + rewrite prepareTransaction_history,
        (prepareTransaction_networkInfo_absent _ _ _ _ Hni).
      destruct (getAccountNetworkInfo X (history w) a) as [ni|e];
        [|by exists []].
      destruct (strict_eq (ni_family ni) "tezos"); [|by eexists [_]].
      match goal with
      | |- context [prepareTransaction_limits X a t ?w1] =>
          destruct (prepareTransaction_limits_history X a t w1)
            as (calls & -> & _)
      end.
      simpl. rewrite <- app_assoc. simpl. by eexists.
    + intros ni Hfetch Hfamily.
      apply prepareTransaction_networkInfo_throws.
      rewrite (prepareTransaction_networkInfo_absent _ _ _ _ Hni), Hfetch.
      unfold strict_eq, string_strict_eq.
      by destruct (String.eqb_spec (ni_family ni) "tezos").
  - intros [ni Hni].
    rewrite prepareTransaction_history,
      (prepareTransaction_networkInfo_present _ _ _ _ _ Hni).
    apply prepareTransaction_limits_history.
Qed.

Lemma networkInfo_fetch_and_assertion_witness :
  prepareTransaction Sample.engine_bitcoin Sample.alice Sample.to_bob
                     Sample.w0
  = (Throw (mkError "Invariant Violation" "tezos networkInfo expected"),
     mkWorld [call_getAccountNetworkInfo Sample.alice;
              call_invariant false "tezos networkInfo expected"]
             1000 [] [])
  /\ exists calls,
       history (snd (prepareTransaction Sample.engine Sample.alice
                                        Sample.to_bob_prepared Sample.w0))
       = calls
       /\ forallb (fun c => negb (is_networkInfo_call c)) calls = true.
Proof.
  split.
  - destruct (networkInfo_fetch_and_assertion Sample.engine_bitcoin
                Sample.alice Sample.to_bob Sample.w0) as [Habsent _].
    destruct (Habsent eq_refl) as [_ Hmismatch].
    by apply (Hmismatch Sample.bitcoin_info).
  - destruct (networkInfo_fetch_and_assertion Sample.engine Sample.alice
                Sample.to_bob_prepared Sample.w0) as [_ Hpresent].
    destruct Hpresent as (calls & Hcalls & Hnone); [by eexists|].
    by exists calls.
Defined.

(** * C7: the recipient of a sub-account draft *)

(** C7. When the draft names a sub-account and has an empty recipient,
    every draft [prepareTransaction] resolves to has the fresh address of
    the account as recipient, and it does resolve to one as soon as the
    network info is there or is fetched.  And [getTransactionStatus]
    reports [recipientIsReadOnly] exactly when the draft names a
    sub-account. *)
Theorem subAccount_recipient_default (X : Collaborators) (a : Account)
    (t : Transaction) (w : World) :
  (targets_subAccount t -> t_recipient t = "" ->
     (forall t' w',
        prepareTransaction X a t w = (Ok t', w') ->
        t_recipient t' = acc_freshAddress a) /\
     (forall ni w1,
        prepareTransaction_networkInfo X a t w = (Ok ni, w1) ->
        exists t' w',
          prepareTransaction X a t w = (Ok t', w') /\
          t_recipient t' = acc_freshAddress a)) /\
  (exists st w',
     getTransactionStatus X a t w = (Ok st, w') /\
     (recipientIsReadOnly st = true <-> targets_subAccount t)).
Proof.
  split.
  - intros Hsub Hrec.
    assert (forall ni w1,
              prepareTransaction_networkInfo X a t w = (Ok ni, w1) ->
              exists t' w',
                prepareTransaction X a t w = (Ok t', w') /\
                t_recipient t' = acc_freshAddress a) as Hruns.
    { intros ni w1 Hni.
      assert (prepareTransaction_limits X a t w1
              = (Ok (t_gasLimit t, t_storageLimit t), w1)) as Hlim.
      { unfold prepareTransaction_limits. rewrite Hrec. simpl.
        by rewrite andb_false_r. }
      destruct (prepareTransaction_finish X a t w ni w1 _ _ w1 Hni Hlim)
        as (t' & w' & Hrun & _ & _ & Ht').
      exists t', w'. split; [done|]. rewrite Ht'.
      apply toBoolean_subAccountId in Hsub. rewrite Hsub, Hrec. done. }
    split; [|done].
    intros t' w' Hrun.
    destruct (prepareTransaction_networkInfo X a t w) as [[ni|e] w1] eqn:Hni.
    + destruct (Hruns ni w1 eq_refl) as (t'' & w'' & Hrun' & Ht'').
      rewrite Hrun in Hrun'. by injection Hrun' as <- <-.
    + apply prepareTransaction_networkInfo_throws in Hni. congruence.
  - destruct (getTransactionStatus_shape X a t w)
      as (ef & errs0 & w2 & st & w' & _ & Hrun & _ & _ & _ & _ & _ & _
          & Hro & _).
    exists st, w'. split; [done|]. rewrite Hro.
    apply toBoolean_subAccountId.
Qed.

Lemma subAccount_recipient_default_witness :
  exists t' w',
    prepareTransaction Sample.engine Sample.alice Sample.from_sub Sample.w0
    = (Ok t', w') /\
    t_recipient t' = "tz1alice".
Proof.
  destruct (subAccount_recipient_default Sample.engine Sample.alice
              Sample.from_sub Sample.w0) as [Hprepare _].
  destruct Hprepare as [_ Hruns].
  - exists "KT1sub". by split.
  - reflexivity.
  - by apply (Hruns Sample.tezos_info
                (snd (prepareTransaction_networkInfo Sample.engine
                        Sample.alice Sample.from_sub Sample.w0))).
Defined.

(** * C3: a failure of the gas and storage estimator *)

(** C3, as the code has it.  Take a draft whose network info is resolved,
    that misses its gas limit or its storage limit and has a recipient.
    If the recipient fails validation, the estimator is not invoked:
    validation is the last call, the preparation resolves, and the gas
    limit and the storage limit of the draft it resolves to are those of
    the draft it was given.  If the recipient is valid and the estimator
    rejects, the preparation is rejected with the same error. *)
Theorem estimation_failure_propagates (X : Collaborators) (a : Account)
    (t : Transaction) (w : World) (ni : NetworkInfo) (w1 : World)
    (v : RecipientValidation) (w2 : World) :
  prepareTransaction_networkInfo X a t w = (Ok ni, w1) ->
  t_gasLimit t = None \/ t_storageLimit t = None ->
  t_recipient t <> "" ->
  await_validateRecipient X (acc_currency a) (t_recipient t) w1
  = (Ok v, w2) ->
  (is_Some (recipientError v) ->
     exists t' w',
       prepareTransaction X a t w = (Ok t', w') /\
       t_gasLimit t' = t_gasLimit t /\
       t_storageLimit t' = t_storageLimit t /\
       history w' = history w2) /\
  (recipientError v = None ->
     forall e w3,
       estimateGasLimitAndStorage X a (t_recipient t) w2 = (Throw e, w3) ->
       prepareTransaction X a t w = (Throw e, w3)).
Proof.
  intros Hni Hmiss Hrec Hval.
  assert (prepareTransaction_limits X a t w1
          = if negb (toBoolean (recipientError v))
            then (r ← estimateGasLimitAndStorage X a (t_recipient t);
                  mret (Some (r_gasLimit r), Some (r_storage r))) w2
            else (Ok (t_gasLimit t, t_storageLimit t), w2)) as Hlim.
  { unfold prepareTransaction_limits.
    assert ((negb (toBoolean (t_gasLimit t))
             || negb (toBoolean (t_storageLimit t)))
            && toBoolean (t_recipient t) = true) as ->.
    { apply andb_true_iff. split.
      - destruct Hmiss as [-> | ->]; [done|]. apply orb_true_r.
      - apply not_false_iff_true. by rewrite toBoolean_string. }
    unfold mbind at 1, M_bind at 1. rewrite Hval.
    by destruct (negb (toBoolean (recipientError v))). }
  split.
  - intros [e He]. rewrite He in Hlim. simpl in Hlim.
    destruct (prepareTransaction_finish X a t w ni w1 _ _ w2 Hni Hlim)
      as (t' & w' & Hrun & Hhist & Hcase & _).
    exists t', w'. by destruct Hcase as [-> | (Hg & Hs & _)].
  - intros Hvalid e w3 Hest. rewrite Hvalid in Hlim. simpl in Hlim.
    apply (prepareTransaction_limits_throws X a t w ni w1 e w3 Hni).
    rewrite Hlim. unfold mbind, M_bind. by rewrite Hest.
Qed.

Lemma estimation_failure_propagates_witness :
  prepareTransaction Sample.engine_down Sample.alice Sample.to_bob Sample.w0
  = (Throw Sample.Unreachable,
     snd (estimateGasLimitAndStorage Sample.engine_down Sample.alice
            "tz1bob"
            (snd (await_validateRecipient Sample.engine_down Sample.xtz
                    "tz1bob"
                    (snd (prepareTransaction_networkInfo Sample.engine_down
                            Sample.alice Sample.to_bob Sample.w0)))))).
Proof.
  eapply (estimation_failure_propagates Sample.engine_down Sample.alice
            Sample.to_bob Sample.w0 Sample.tezos_info).
  - reflexivity.
  - by left.
  - discriminate.
  - reflexivity.
  - reflexivity.
  - reflexivity.
Defined.

(** C3, as the specification has it, fails: with a valid recipient and a
    node that cannot estimate gas, the preparation does not resolve to a
    draft, it is rejected with the error of the estimator. *)
Lemma estimation_failure_is_not_swallowed :
  fst (prepareTransaction Sample.engine_down Sample.alice Sample.to_bob
                          Sample.w0)
  = Throw Sample.Unreachable
  /\ ~ (exists t' w',
          prepareTransaction Sample.engine_down Sample.alice Sample.to_bob
                             Sample.w0
          = (Ok t', w')).
Proof.
  split; [reflexivity|].
  intros (t' & w' & Hrun).
  apply (f_equal fst) in Hrun. vm_compute in Hrun. discriminate.
Qed.

(** * C9: the key of the fee calculator *)

(** ** Concatenation *)

Lemma append_cons a (s1 s2 : string) :
  String a s1 +:+ s2 = String a (s1 +:+ s2).
Proof. reflexivity. Qed.

Lemma list_ascii_of_append (s1 s2 : string) :
  String.list_ascii_of_string (s1 +:+ s2)
  = (String.list_ascii_of_string s1 ++ String.list_ascii_of_string s2)%list.
Proof.
  induction s1 as [|a s1 IH]; [done|].
  rewrite append_cons. simpl. by rewrite IH.
Qed.

Lemma append_inv_head (s x y : string) : s +:+ x = s +:+ y -> x = y.
Proof.
  induction s as [|a s IH]; [done|].
  rewrite !append_cons. intros [= H]. by apply IH.
Qed.

Lemma append_inv_tail (s x y : string) : x +:+ s = y +:+ s -> x = y.
Proof.
  intros H. apply (f_equal String.list_ascii_of_string) in H.
  rewrite !list_ascii_of_append in H. apply app_inv_tail in H.
  rewrite <- (String.string_of_list_ascii_of_string x),
    <- (String.string_of_list_ascii_of_string y). by rewrite H.
Qed.

(** ** The store of a cache *)

Lemma cache_get_del_ne {V} (k1 k2 : string) (c : list (string * result V)) :
  k1 <> k2 -> cache_get k2 (cache_del k1 c) = cache_get k2 c.
Proof.
  intros Hne. induction c as [|[k p] c IH]; [done|]. simpl.
  destruct (String.eqb_spec k k1) as [->|Hk]; simpl.
  - destruct (String.eqb_spec k1 k2); [done|]. apply IH.
  - destruct (String.eqb_spec k k2); [done|]. apply IH.
Qed.

Lemma cache_get_take_None {V} (k : string) (n : nat)
    (c : list (string * result V)) :
  cache_get k c = None -> cache_get k (take n c) = None.
Proof.
  revert n. induction c as [|[k' p] c IH]; intros [|n]; try done. simpl.
  destruct (String.eqb k' k); [done|]. apply IH.
Qed.

Lemma cache_get_set_ne {V} (max : nat) (k1 k2 : string) (p : result V)
    (c : list (string * result V)) :
  k1 <> k2 -> cache_get k2 c = None ->
  cache_get k2 (cache_set max k1 p c) = None.
Proof.
  intros Hne Hnone. unfold cache_set. apply cache_get_take_None. simpl.
  destruct (String.eqb_spec k1 k2); [done|]. by rewrite cache_get_del_ne.
Qed.

Lemma cache_get_touch_ne {V} (k1 k2 : string) (p : result V)
    (c : list (string * result V)) :
  k1 <> k2 -> cache_get k2 c = None ->
  cache_get k2 (cache_touch k1 p c) = None.
Proof.
  intros Hne Hnone. unfold cache_touch. simpl.
  destruct (String.eqb_spec k1 k2); [done|]. by rewrite cache_get_del_ne.
Qed.

(** The fee calculator only writes under the key of its arguments. *)
Lemma calculateFees_other_key X a t w k :
  calculateFees_key X a t <> k ->
  cache_get k (feesCache w) = None ->
  cache_get k (feesCache (snd (calculateFees X a t w))) = None.
Proof.
  intros Hne Hnone.
  unfold calculateFees, makeLRUCache, calculateFees_compute. step.
  destruct (cache_get (calculateFees_key X a t) (feesCache w)) as [p|];
    simpl.
  { by apply cache_get_touch_ne. }
  destruct (recipientError _) as [e|]; simpl.
  { rewrite cache_get_del_ne by done. by apply cache_get_set_ne. }
  destruct (getFeesForTransaction _ _ _ _) as [f|e]; simpl.
  - by apply cache_get_set_ne.
  - rewrite cache_get_del_ne by done. by apply cache_get_set_ne.
Qed.

(** On a miss the fee calculator computes: it validates the recipient. *)
Lemma calculateFees_miss X a t w :
  cache_get (calculateFees_key X a t) (feesCache w) = None ->
  exists calls,
    history (snd (calculateFees X a t w))
    = (history w
       ++ call_calculateFees a t
          :: call_validateRecipient (acc_currency a) (t_recipient t)
          :: calls)%list.
Proof.
  intros Hmiss.
  unfold calculateFees, makeLRUCache, calculateFees_compute. step.
  rewrite Hmiss.
  destruct (recipientError _) as [e|]; simpl.
  { exists []. by rewrite <- app_assoc. }
  destruct (getFeesForTransaction _ _ _ _) as [f|e]; simpl.
  all: eexists [_]; by rewrite <- !app_assoc.
Qed.

(** ** The key *)

Section CacheKey.
Variable X : Collaborators.

(** What is asked of [toString]: it tells numbers apart, and it never
    gives the empty string. *)
Hypothesis toString_injective :
  forall x y : Z, BigNumber_toString X x = BigNumber_toString X y -> x = y.
Hypothesis toString_nonempty :
  forall x : Z, BigNumber_toString X x <> "".

(** The key, segment by segment. *)
Lemma calculateFees_key_segments (a : Account) (t : Transaction) :
  calculateFees_key X a t
  = acc_id a
    +:+ "_" +:+ segment (BigNumber_toString X) (key_field key_amount t)
    +:+ "_" +:+ segment (BigNumber_toString X) (key_field key_recipient t)
    +:+ "_" +:+ segment (BigNumber_toString X) (key_field key_gasLimit t)
    +:+ "_" +:+ segment (BigNumber_toString X) (key_field key_fees t)
    +:+ "_" +:+ segment (BigNumber_toString X)
                        (key_field key_storageLimit t).
Proof.
  unfold calculateFees_key. simpl.
  by destruct (t_gasLimit t), (t_fees t), (t_storageLimit t).
Qed.

(** A field is known from its segment. *)
Lemma segment_inj (f : KeyField) (t1 t2 : Transaction) :
  segment (BigNumber_toString X) (key_field f t1)
  = segment (BigNumber_toString X) (key_field f t2) ->
  key_field f t1 = key_field f t2.
Proof using toString_injective toString_nonempty.
  assert (forall o1 o2 : option BigNumber,
            segment (BigNumber_toString X) (number_or_absent o1)
            = segment (BigNumber_toString X) (number_or_absent o2) ->
            number_or_absent o1 = number_or_absent o2) as Hnullable.
  { intros [x|] [y|]; simpl; intros H.
    - f_equal. by apply toString_injective.
    - by apply toString_nonempty in H.
    - symmetry in H. by apply toString_nonempty in H.
    - done. }
  destruct f; simpl; try apply Hnullable.
  - intros H. f_equal. by apply toString_injective.
  - by intros ->.
Qed.

(** C9. Take two inputs of the fee calculator with the same account
    identifier, whose drafts differ on one of [amount], [recipient],
    [gasLimit], [storageLimit], [fees] and agree on the four others.
    Their keys differ.  Hence a call for the first one leaves the second
    key without an entry when it had none, and the call for the second
    one then computes anew: it validates the recipient again. *)
Theorem calculateFees_key_sensitive (a1 a2 : Account)
    (t1 t2 : Transaction) (f : KeyField) :
  acc_id a1 = acc_id a2 ->
  differ_only_on f t1 t2 ->
  calculateFees_key X a1 t1 <> calculateFees_key X a2 t2 /\
  forall w,
    cache_get (calculateFees_key X a2 t2) (feesCache w) = None ->
    cache_get (calculateFees_key X a2 t2)
              (feesCache (snd (calculateFees X a1 t1 w))) = None /\
    exists calls,
      history (snd (calculateFees X a2 t2
                      (snd (calculateFees X a1 t1 w))))
      = (history (snd (calculateFees X a1 t1 w))
         ++ call_calculateFees a2 t2
            :: call_validateRecipient (acc_currency a2) (t_recipient t2)
            :: calls)%list.
Proof using toString_injective toString_nonempty.
  intros Hid [Hdiff Hsame].
  assert (calculateFees_key X a1 t1 <> calculateFees_key X a2 t2) as Hkey.
  { intros Hkey. apply Hdiff, segment_inj. clear Hdiff.
    rewrite !calculateFees_key_segments, Hid in Hkey.
    destruct f.
    - rewrite (Hsame key_recipient), (Hsame key_gasLimit),
        (Hsame key_fees), (Hsame key_storageLimit) in Hkey by done.
      do 2 apply append_inv_head in Hkey.
      by apply append_inv_tail in Hkey.
    - rewrite (Hsame key_amount), (Hsame key_gasLimit),
        (Hsame key_fees), (Hsame key_storageLimit) in Hkey by done.
      do 4 apply append_inv_head in Hkey.
      by apply append_inv_tail in Hkey.
    - rewrite (Hsame key_amount), (Hsame key_recipient),
        (Hsame key_fees), (Hsame key_storageLimit) in Hkey by done.
      do 6 apply append_inv_head in Hkey.
      by apply append_inv_tail in Hkey.
    - rewrite (Hsame key_amount), (Hsame key_recipient),
        (Hsame key_gasLimit), (Hsame key_fees) in Hkey by done.
      by do 10 apply append_inv_head in Hkey.
    - rewrite (Hsame key_amount), (Hsame key_recipient),
        (Hsame key_gasLimit), (Hsame key_storageLimit) in Hkey by done.
      do 8 apply append_inv_head in Hkey.
      by apply append_inv_tail in Hkey. }
  split; [done|]. intros w Hnone.
  pose proof (calculateFees_other_key X a1 t1 w _ Hkey Hnone) as Hstill.
  split; [done|]. by apply calculateFees_miss.
Qed.
End CacheKey.

(** ** Decimal notation is a fit [toString] *)

Lemma decimal_injective (x y : Z) :
  Sample.decimal x = Sample.decimal y -> x = y.
Proof.
  assert (forall z, Z.to_int z <> Decimal.Pos Decimal.Nil
                    /\ Z.to_int z <> Decimal.Neg Decimal.Nil) as Hnonnil.
  { intros [|p|p]; split; try discriminate.
    all: intros [= H]; by apply DecimalPos.Unsigned.to_uint_nonnil in H. }
  unfold Sample.decimal. intros H.
  apply DecimalZ.to_int_inj.
  apply (f_equal DecimalString.NilZero.int_of_string) in H.
  rewrite !DecimalString.NilZero.isi in H by apply Hnonnil.
  by injection H.
Qed.

Lemma decimal_nonempty (x : Z) : Sample.decimal x <> "".
Proof.
  unfold Sample.decimal.
  destruct x as [|p|p]; simpl; try discriminate.
  pose proof (DecimalPos.Unsigned.to_uint_nonnil p) as Hp.
  unfold DecimalString.NilZero.string_of_uint.
  by destruct (Pos.to_uint p).
Qed.

Lemma calculateFees_key_sensitive_witness :
  calculateFees_key Sample.engine Sample.alice Sample.to_bob
  <> calculateFees_key Sample.engine Sample.alice Sample.to_bob_more.
Proof.
  apply (calculateFees_key_sensitive Sample.engine decimal_injective
           decimal_nonempty Sample.alice Sample.alice Sample.to_bob
           Sample.to_bob_more key_amount).
  - reflexivity.
  - split; [discriminate|]. by intros [].
Defined.

(** * The model at work on the sample wallet *)

(** The resolved account is a sub-account only when the draft names it and
    the account has it. *)
Lemma getTransactionStatus_account_child a t sub :
  getTransactionStatus_account a t = Child sub ->
  targets_subAccount t /\
  exists subAccounts,
    acc_subAccounts a = Some subAccounts /\ sub ∈ subAccounts /\
    Some (sub_id sub) = t_subAccountId t.
Proof.
  unfold getTransactionStatus_account, getTransactionStatus_subAcc.
  destruct (toBoolean (t_subAccountId t)) eqn:Hid; simpl; [|done].
  destruct (acc_subAccounts a) as [l|]; [|done].
  destruct (List.find _ l) as [s|] eqn:Hfind; [|done].
  intros [= ->]. apply List.find_some in Hfind as [Hin Heq].
  split; [by apply toBoolean_subAccountId|].
  exists l. split; [done|]. split; [by apply list_elem_of_In|].
  destruct (t_subAccountId t) as [sid|]; [|done].
  apply String.eqb_eq in Heq. by rewrite Heq.
Qed.

(** A fee of 11 on an amount of 100 is too high; a fee of 9 is not, and
    neither is a fee of 10. *)
Example feeTooHigh_at_11 :
  Sample.warning_of (getTransactionStatus (Sample.engine_priced 11) Sample.alice
                                          Sample.hundred Sample.w0)
                   "feeTooHigh"
  = Some FeeTooHigh.
Proof. reflexivity. Qed.

Example feeTooHigh_not_at_9 :
  Sample.warning_of (getTransactionStatus (Sample.engine_priced 9) Sample.alice
                                          Sample.hundred Sample.w0)
                   "feeTooHigh"
  = None.
Proof. reflexivity. Qed.

Example feeTooHigh_not_at_10 :
  Sample.warning_of (getTransactionStatus (Sample.engine_priced 10) Sample.alice
                                          Sample.hundred Sample.w0)
                   "feeTooHigh"
  = None.
Proof. reflexivity. Qed.

(** Sending everything: the account's balance is spent, the amount is the
    balance less the fees; from the sub-account, its balance. *)
Example send_all_totals :
  Sample.totals_of (getTransactionStatus Sample.engine Sample.alice
                                         Sample.send_all Sample.w0)
  = Some (1420, 4998580, 5000000).
Proof. reflexivity. Qed.

Example send_all_sub_totals :
  Sample.totals_of (getTransactionStatus Sample.engine Sample.alice
                                  Sample.send_all_sub Sample.w0)
  = Some (1420, 698580, 700000).
Proof. reflexivity. Qed.

Example send_part_totals :
  Sample.totals_of (getTransactionStatus Sample.engine Sample.alice
                                  Sample.to_bob_prepared Sample.w0)
  = Some (1420, 100000, 101420).
Proof. reflexivity. Qed.

(** A new draft given a recipient is at its fixed point after one
    preparation: the second one returns the draft of the first. *)
Example prepare_twice :
  match prepareTransaction Sample.engine Sample.alice Sample.to_bob Sample.w0
  with
  | (Ok t1, w1) =>
      t1 <> Sample.to_bob /\
      fst (prepareTransaction Sample.engine Sample.alice t1 w1) = Ok t1
  | (Throw _, _) => False
  end.
Proof. vm_compute. split; [discriminate|reflexivity]. Qed.

(** The key of the sample send. *)
Example key_of_to_bob :
  calculateFees_key Sample.engine Sample.alice Sample.to_bob_prepared
  = "libcore:1:tezos:xpub:_100000_tz1bob_10300_1420_300".
Proof. reflexivity. Qed.

(** A second call for the same input is served from the cache: the
    transaction is priced once. *)
Example calculateFees_twice :
  history (snd (calculateFees Sample.engine Sample.alice
                  Sample.to_bob_prepared
                  (snd (calculateFees Sample.engine Sample.alice
                          Sample.to_bob_prepared Sample.w0))))
  = [call_calculateFees Sample.alice Sample.to_bob_prepared;
     call_validateRecipient Sample.xtz "tz1bob";
     call_getFeesForTransaction Sample.alice Sample.to_bob_prepared;
     call_calculateFees Sample.alice Sample.to_bob_prepared].
Proof. reflexivity. Qed.

(** * More on [prepareTransaction] *)

(** Neither step of a preparation allocates. *)
Lemma prepareTransaction_networkInfo_next_ref X a t w :
  next_ref (snd (prepareTransaction_networkInfo X a t w)) = next_ref w.
Proof.
  unfold prepareTransaction_networkInfo.
  destruct (t_networkInfo t); [done|]. step.
  destruct (getAccountNetworkInfo _ _ _) as [ni|e]; [|done]. simpl.
  by destruct (strict_eq (ni_family ni) "tezos").
Qed.

Lemma prepareTransaction_limits_next_ref X a t w :
  next_ref (snd (prepareTransaction_limits X a t w)) = next_ref w.
Proof.
  unfold prepareTransaction_limits.
  destruct (_ && _); [|done].
  step. destruct (negb (toBoolean (recipientError _))); [|done].
  unfold estimateGasLimitAndStorage, makeLRUCache,
    estimateGasLimitAndStorage_compute. step.
  destruct (cache_get _ (gasCache w)) as [[r|e]|]; simpl; try done.
  destruct (asTezosLikeAccount _ _ _) as [[]|e]; simpl;
    [destruct (getEstimatedGasLimit _ _ _ _) as [g|e]; simpl;
     [destruct (getStorage _ _ _ _) as [s|e]; simpl|]|].
  all: done.
Qed.

(** What the second step resolves to: the limits of the draft, or both
    estimates. *)
Lemma prepareTransaction_limits_inv X a t w gasLimit storageLimit w2 :
  prepareTransaction_limits X a t w = (Ok (gasLimit, storageLimit), w2) ->
  (gasLimit = t_gasLimit t /\ storageLimit = t_storageLimit t)
  \/ ((t_gasLimit t = None \/ t_storageLimit t = None)
      /\ t_recipient t <> ""
      /\ exists r, gasLimit = Some (r_gasLimit r)
                   /\ storageLimit = Some (r_storage r)).
Proof.
  unfold prepareTransaction_limits.
  destruct (_ && _) eqn:Hcond; [|intros [= <- <- _]; by left].
  apply andb_true_iff in Hcond as [Hmiss Hrec].
  step. destruct (negb (toBoolean (recipientError _)));
    [|intros [= <- <- _]; by left].
  destruct (estimateGasLimitAndStorage _ _ _ _) as [[r|e] w3]; [|done].
  intros [= <- <- _]. right. split; [|split].
  - apply orb_true_iff in Hmiss as [H|H]; [left|right].
    + by destruct (t_gasLimit t).
    + by destruct (t_storageLimit t).
  - intros Hr. apply toBoolean_string in Hr. congruence.
  - by exists r.
Qed.

(** What a preparation resolves to: the draft it was given, when none of
    the five fields changed, or a new draft at the next free address. *)
Lemma prepareTransaction_inv X a t w t' w' :
  prepareTransaction X a t w = (Ok t', w') ->
  exists ni w1 gasLimit storageLimit w2,
    prepareTransaction_networkInfo X a t w = (Ok ni, w1) /\
    prepareTransaction_limits X a t w1 = (Ok (gasLimit, storageLimit), w2) /\
    let fees :=
      if toBoolean (t_fees t) then t_fees t else Some (ni_fees ni) in
    let recipient :=
      if toBoolean (t_subAccountId t) && negb (toBoolean (t_recipient t))
      then acc_freshAddress a else t_recipient t in
    let t2 :=
      mkTransaction (next_ref w2) (t_family t) (t_mode t) (t_amount t) fees
                    gasLimit storageLimit recipient (Some ni)
                    (t_subAccountId t) (t_useAllAmount t) in
    (unchanged t t2 = true /\ t' = t /\ w' = w2)
    \/ (unchanged t t2 = false /\ t' = t2 /\ w' = allocated w2).
Proof.
  unfold prepareTransaction, mbind, M_bind.
  destruct (prepareTransaction_networkInfo X a t w) as [[ni|e] w1] eqn:Hni;
    [|discriminate].
  destruct (prepareTransaction_limits X a t w1) as [[[gl sl]|e] w2] eqn:Hlim;
    [|discriminate].
  step. intros Hrun. exists ni, w1, gl, sl, w2. do 2 (split; [done|]).
  unfold unchanged. simpl.
  assert (forall b1 b2 b3 b4 b5 : bool,
            negb b1 || negb b2 || negb b3 || negb b4 || negb b5
            = negb (b1 && b2 && b3 && b4 && b5)) as Hbool
    by (by intros [] [] [] [] []).
  rewrite Hbool in Hrun.
  match type of Hrun with
  | context [if negb ?c then _ else _] => destruct c eqn:Hc
  end; injection Hrun as <- <-; [by left|by right].
Qed.

(** What the two cases of a preparation have in common. *)
Lemma prepareTransaction_fields X a t w t' w' :
  prepareTransaction X a t w = (Ok t', w') ->
  t_family t' = t_family t /\ t_mode t' = t_mode t /\
  t_amount t' = t_amount t /\ t_subAccountId t' = t_subAccountId t /\
  t_useAllAmount t' = t_useAllAmount t /\
  (exists ni, t_networkInfo t' = Some ni /\
              (t_fees t = None -> t_fees t' = Some (ni_fees ni)) /\
              (is_Some (t_networkInfo t) -> t_networkInfo t' = t_networkInfo t))
  /\
  (is_Some (t_fees t) -> t_fees t' = t_fees t) /\
  t_recipient t'
  = (if toBoolean (t_subAccountId t) && negb (toBoolean (t_recipient t))
     then acc_freshAddress a else t_recipient t).
Proof.
  intros Hrun.
  destruct (prepareTransaction_inv X a t w t' w' Hrun)
    as (ni & w1 & gl & sl & w2 & Hni & Hlim & Hcases).
  assert (is_Some (t_networkInfo t) -> t_networkInfo t = Some ni) as Hpresent.
  { intros [ni0 Hni0].
    rewrite (prepareTransaction_networkInfo_present _ _ _ _ _ Hni0) in Hni.
    congruence. }
  simpl in Hcases.
  destruct Hcases as [(Hsame & -> & ->)|(_ & -> & ->)]; simpl.
  - unfold unchanged in Hsame. simpl in Hsame.
    repeat (apply andb_true_iff in Hsame as [Hsame ?]).
    do 5 (split; [done|]).
    split; [|split; [done|]].
    + destruct (t_networkInfo t) as [ni0|] eqn:Hni0; [|done].
      exists ni0. split; [done|]. split; [|done].
      intros Hf. rewrite Hf in *. done.
    + match goal with
      | H : strict_eq (t_recipient t) _ = true |- _ =>
          by apply String.eqb_eq in H
      end.
  - do 5 (split; [done|]).
    split; [|split; [|done]].
    + exists ni. split; [done|]. split.
      * by intros ->.
      * intros Hsome. by rewrite (Hpresent Hsome).
    + by intros [f ->].
Qed.

Lemma prepared_draft_fees_present X a t w t' w' :
  prepareTransaction X a t w = (Ok t', w') -> is_Some (t_fees t').
Proof.
  intros Hrun.
  destruct (prepareTransaction_fields X a t w t' w' Hrun)
    as (_ & _ & _ & _ & _ & (ni & Hni & Hdefault & _) & Hkept & _).
  destruct (t_fees t) as [f|] eqn:Hf.
  - rewrite Hkept; by eexists.
  - rewrite Hdefault; by eexists.
Qed.

(** X1. The drafts a preparation resolves to carry a network info and fees:
    the fees of the draft when it had some, the fees of the network info
    otherwise. *)
Theorem prepared_draft_has_fees (X : Collaborators) (a : Account)
    (t : Transaction) (w : World) (t' : Transaction) (w' : World) :
  prepareTransaction X a t w = (Ok t', w') ->
  exists ni,
    t_networkInfo t' = Some ni /\
    is_Some (t_fees t') /\
    (t_fees t = None -> t_fees t' = Some (ni_fees ni)) /\
    (is_Some (t_fees t) -> t_fees t' = t_fees t).
Proof.
  intros Hrun.
  destruct (prepareTransaction_fields X a t w t' w' Hrun)
    as (_ & _ & _ & _ & _ & (ni & Hni & Hdefault & _) & Hkept & _).
  exists ni. split; [done|]. split; [|done].
  destruct (t_fees t) as [f|] eqn:Hf.
  - rewrite Hkept; by eexists.
  - rewrite Hdefault; by eexists.
Qed.

Lemma prepared_draft_has_fees_witness :
  exists f, t_fees Sample.to_bob_once = Some f.
Proof.
  destruct (prepared_draft_has_fees Sample.engine Sample.alice Sample.to_bob
              Sample.w0 Sample.to_bob_once
              (snd (prepareTransaction Sample.engine Sample.alice
                      Sample.to_bob Sample.w0))
              ltac:(vm_compute; reflexivity)) as (ni & _ & [f Hf] & _).
  by exists f.
Defined.

(** X2. A preparation never touches the family, the mode, the amount, the
    sub-account identifier or the all-balance flag of a draft; it keeps the
    network info and the fees the draft has, and a recipient that is not
    empty. *)
Theorem prepareTransaction_keeps_user_input (X : Collaborators) (a : Account)
    (t : Transaction) (w : World) (t' : Transaction) (w' : World) :
  prepareTransaction X a t w = (Ok t', w') ->
  t_family t' = t_family t /\ t_mode t' = t_mode t /\
  t_amount t' = t_amount t /\ t_subAccountId t' = t_subAccountId t /\
  t_useAllAmount t' = t_useAllAmount t /\
  (is_Some (t_networkInfo t) -> t_networkInfo t' = t_networkInfo t) /\
  (is_Some (t_fees t) -> t_fees t' = t_fees t) /\
  (t_recipient t <> "" -> t_recipient t' = t_recipient t).
Proof.
  intros Hrun.
  destruct (prepareTransaction_fields X a t w t' w' Hrun)
    as (Hfam & Hmode & Hamount & Hsub & Hall & (ni & _ & _ & Hni) & Hfees
        & Hrec).
  do 5 (split; [done|]). split; [done|]. split; [done|].
  intros Hne. rewrite Hrec.
  assert (toBoolean (t_recipient t) = true) as ->.
  { apply not_false_iff_true. by rewrite toBoolean_string. }
  by rewrite andb_false_r.
Qed.

Lemma prepareTransaction_keeps_user_input_witness :
  t_amount Sample.to_bob_once = t_amount Sample.to_bob /\
  t_recipient Sample.to_bob_once = t_recipient Sample.to_bob.
Proof.
  destruct (prepareTransaction_keeps_user_input Sample.engine
              Sample.alice Sample.to_bob Sample.w0 Sample.to_bob_once
              (snd (prepareTransaction Sample.engine Sample.alice
                      Sample.to_bob Sample.w0))
              ltac:(vm_compute; reflexivity))
    as (_ & _ & Hamount & _ & _ & _ & _ & Hrec).
  split; [exact Hamount|]. apply Hrec. discriminate.
Defined.

Lemma strict_eq_option_refl_BigNumber (x : option BigNumber) :
  strict_eq x x = true.
Proof. destruct x; [apply Nat.eqb_refl|done]. Qed.

Lemma strict_eq_option_refl_NetworkInfo (x : option NetworkInfo) :
  strict_eq x x = true.
Proof. destruct x; [apply Nat.eqb_refl|done]. Qed.

Lemma unchanged_refl t : unchanged t t = true.
Proof.
  unfold unchanged.
  by rewrite strict_eq_option_refl_NetworkInfo,
    !strict_eq_option_refl_BigNumber, strict_eq_string_refl.
Qed.

(** X3. Comparing the prepared draft with the draft by identity is sound.  In
    a world whose next free address is above the address of the draft, the
    draft a preparation resolves to has the address of the draft exactly
    when it is the draft, which is exactly when none of the five resolved
    fields differs by [!==]; a draft that is not the one given is a new
    object, at the next free address. *)
Theorem prepareTransaction_identity (X : Collaborators) (a : Account)
    (t : Transaction) (w : World) (t' : Transaction) (w' : World) :
  (t_ref t < next_ref w)%nat ->
  prepareTransaction X a t w = (Ok t', w') ->
  (t_ref t' = t_ref t <-> t' = t) /\
  (t' = t <-> unchanged t t' = true) /\
  (t' <> t -> t_ref t' = next_ref w /\ next_ref w' = S (next_ref w)).
Proof.
  intros Hwf Hrun.
  destruct (prepareTransaction_inv X a t w t' w' Hrun)
    as (ni & w1 & gl & sl & w2 & Hni & Hlim & Hcases).
  assert (next_ref w2 = next_ref w) as Hnext.
  { pose proof (prepareTransaction_networkInfo_next_ref X a t w) as H1.
    pose proof (prepareTransaction_limits_next_ref X a t w1) as H2.
    rewrite Hni in H1. rewrite Hlim in H2. simpl in *. congruence. }
  simpl in Hcases.
  destruct Hcases as [(Hsame & -> & ->)|(Hdiff & -> & ->)]; simpl.
  - split; [done|]. split; [|done].
    split; [intros _; apply unchanged_refl|done].
  - rewrite Hnext.
    assert (forall t2, t_ref t2 = next_ref w -> t2 <> t) as Hnew.
    { intros t2 Href ->. lia. }
    split; [|split].
    + split; [lia|]. intros Heq. by apply Hnew in Heq.
    + split.
      * intros Heq. by apply Hnew in Heq.
      * unfold unchanged in *. simpl in *. congruence.
    + done.
Qed.

Lemma prepareTransaction_identity_witness :
  t_ref Sample.to_bob_once = 1000%nat /\
  (Sample.to_bob_once = Sample.to_bob
   <-> unchanged Sample.to_bob Sample.to_bob_once = true).
Proof.
  destruct (prepareTransaction_identity Sample.engine Sample.alice
              Sample.to_bob Sample.w0 Sample.to_bob_once
              (snd (prepareTransaction Sample.engine Sample.alice
                      Sample.to_bob Sample.w0))
              ltac:(simpl; lia) ltac:(vm_compute; reflexivity))
    as (_ & Hiff & Hnew).
  split; [|exact Hiff]. apply Hnew. discriminate.
Defined.

(** A draft with its network info and its fees, and with both limits or
    an empty recipient that no default replaces, is returned as it is, and
    nothing is called. *)
Lemma prepareTransaction_stable X a t w :
  is_Some (t_networkInfo t) ->
  is_Some (t_fees t) ->
  (is_Some (t_gasLimit t) /\ is_Some (t_storageLimit t))
  \/ t_recipient t = "" ->
  (toBoolean (t_subAccountId t) = true -> t_recipient t = "" ->
   acc_freshAddress a = "") ->
  prepareTransaction X a t w = (Ok t, w).
Proof.
  intros [ni Hni] [f Hf] Hlimits Hdefault.
  assert (prepareTransaction_limits X a t w
          = (Ok (t_gasLimit t, t_storageLimit t), w)) as Hlim.
  { unfold prepareTransaction_limits.
    destruct Hlimits as [[[g Hg] [s Hs]]|Hrec].
    - by rewrite Hg, Hs.
    - rewrite Hrec. simpl. by rewrite andb_false_r. }
  unfold prepareTransaction, mbind, M_bind.
  rewrite (prepareTransaction_networkInfo_present _ _ _ _ _ Hni), Hlim.
  rewrite Hni, Hf. step.
  assert ((if toBoolean (t_subAccountId t) && negb (toBoolean (t_recipient t))
           then acc_freshAddress a else t_recipient t) = t_recipient t) as ->.
  { destruct (toBoolean (t_subAccountId t)) eqn:Hsub; [|done].
    destruct (toBoolean (t_recipient t)) eqn:Hrec; [done|]. simpl.
    apply toBoolean_string in Hrec. rewrite Hrec. by apply Hdefault. }
  by rewrite strict_eq_string_refl, !strict_eq_option_refl_BigNumber,
    strict_eq_option_refl_NetworkInfo.
Qed.

(** X4. What a preparation resolves to is stable as soon as it has both limits
    or an empty recipient: prepared again for the same account, in any
    world, it is returned as it is and nothing is called. *)
Theorem prepareTransaction_twice (X : Collaborators) (a : Account)
    (t : Transaction) (w : World) (t1 : Transaction) (w1 : World) :
  prepareTransaction X a t w = (Ok t1, w1) ->
  (is_Some (t_gasLimit t1) /\ is_Some (t_storageLimit t1))
  \/ t_recipient t1 = "" ->
  forall w2, prepareTransaction X a t1 w2 = (Ok t1, w2).
Proof.
  intros Hrun Hlimits w2.
  destruct (prepareTransaction_fields X a t w t1 w1 Hrun)
    as (_ & _ & _ & Hsub & _ & (ni & Hni & _) & _ & Hrec).
  pose proof (prepared_draft_fees_present X a t w t1 w1 Hrun) as Hfees.
  apply prepareTransaction_stable; [by rewrite Hni|done|done|].
  intros Hid Hempty. rewrite Hsub in Hid. rewrite Hid in Hrec.
  destruct (toBoolean (t_recipient t)) eqn:Ht; simpl in Hrec.
  - rewrite Hempty in Hrec. rewrite <- Hrec in Ht. discriminate.
  - congruence.
Qed.

Lemma prepareTransaction_twice_witness :
  prepareTransaction Sample.engine Sample.alice Sample.to_bob_once
    (snd (prepareTransaction Sample.engine Sample.alice Sample.to_bob
                             Sample.w0))
  = (Ok Sample.to_bob_once,
     snd (prepareTransaction Sample.engine Sample.alice Sample.to_bob
                             Sample.w0)).
Proof.
  apply (prepareTransaction_twice Sample.engine Sample.alice Sample.to_bob
           Sample.w0 Sample.to_bob_once
           (snd (prepareTransaction Sample.engine Sample.alice
                   Sample.to_bob Sample.w0))
           ltac:(vm_compute; reflexivity)).
  left. split; [by exists (mkBN 3 10300)|by exists (mkBN 4 300)].
Defined.

(** With a recipient that is there and that the validator accepts, the
    second step resolves to two limits. *)
Lemma prepareTransaction_limits_valid X a t w gasLimit storageLimit w2 :
  t_recipient t <> "" ->
  (forall h, recipientError (validateRecipient X h (acc_currency a)
                                               (t_recipient t)) = None) ->
  prepareTransaction_limits X a t w = (Ok (gasLimit, storageLimit), w2) ->
  is_Some gasLimit /\ is_Some storageLimit.
Proof.
  intros Hrec Hvalid. unfold prepareTransaction_limits.
  assert (toBoolean (t_recipient t) = true) as ->.
  { apply not_false_iff_true. by rewrite toBoolean_string. }
  rewrite andb_true_r.
  destruct (t_gasLimit t) as [g|], (t_storageLimit t) as [s|]; simpl.
  { intros [= <- <- _]. by split; eexists. }
  all: step; rewrite Hvalid; simpl.
  all: destruct (estimateGasLimitAndStorage _ _ _ _) as [[r|e] w3];
    [|discriminate].
  all: intros [= <- <- _]; by split; eexists.
Qed.

(** X5. One successful preparation is enough for a draft whose recipient is
    there and is accepted by the validator: the draft it resolves to has
    both limits, and prepared again it is returned as it is, with nothing
    called. *)
Theorem prepareTransaction_converges (X : Collaborators) (a : Account)
    (t : Transaction) (w : World) (t1 : Transaction) (w1 : World) :
  t_recipient t <> "" ->
  (forall h, recipientError (validateRecipient X h (acc_currency a)
                                               (t_recipient t)) = None) ->
  prepareTransaction X a t w = (Ok t1, w1) ->
  is_Some (t_gasLimit t1) /\ is_Some (t_storageLimit t1) /\
  forall w2, prepareTransaction X a t1 w2 = (Ok t1, w2).
Proof.
  intros Hrec Hvalid Hrun.
  destruct (prepareTransaction_inv X a t w t1 w1 Hrun)
    as (ni & w0 & gl & sl & w2 & Hni & Hlim & Hcases).
  destruct (prepareTransaction_limits_valid X a t w0 gl sl w2 Hrec Hvalid
              Hlim) as [[g ->] [s ->]].
  assert (is_Some (t_gasLimit t1) /\ is_Some (t_storageLimit t1))
    as [Hg Hs].
  { simpl in Hcases.
    destruct Hcases as [(Hsame & -> & _)|(_ & -> & _)];
      [|by split; eexists].
    unfold unchanged in Hsame. simpl in Hsame.
    repeat (apply andb_true_iff in Hsame as [Hsame ?]).
    split.
    - by destruct (t_gasLimit t); [eexists|].
    - by destruct (t_storageLimit t); [eexists|]. }
  do 2 (split; [done|]).
  intros w3. pose proof (prepared_draft_fees_present X a t w t1 w1 Hrun).
  destruct (prepareTransaction_fields X a t w t1 w1 Hrun)
    as (_ & _ & _ & _ & _ & (ni1 & Hni1 & _) & _ & Hrec1).
  apply prepareTransaction_stable; [by rewrite Hni1|done|by left|].
  intros _ Hempty. rewrite Hrec1 in Hempty.
  assert (toBoolean (t_recipient t) = true) as Ht.
  { apply not_false_iff_true. by rewrite toBoolean_string. }
  rewrite Ht, andb_false_r in Hempty. done.
Qed.

Lemma prepareTransaction_converges_witness :
  is_Some (t_gasLimit Sample.to_bob_once) /\
  prepareTransaction Sample.engine Sample.alice Sample.to_bob_once Sample.w0
  = (Ok Sample.to_bob_once, Sample.w0).
Proof.
  destruct (prepareTransaction_converges Sample.engine Sample.alice
              Sample.to_bob Sample.w0 Sample.to_bob_once
              (snd (prepareTransaction Sample.engine Sample.alice
                      Sample.to_bob Sample.w0))
              ltac:(discriminate) ltac:(reflexivity)
              ltac:(vm_compute; reflexivity))
    as (Hg & _ & Hstable).
  split; [exact Hg|apply Hstable].
Defined.

(** X6. With an empty recipient nothing is validated and nothing is estimated:
    the only calls are the fetch of the network info and its assertion, the
    cache of the estimator is left alone, and the limits of the draft the
    preparation resolves to are those of the draft, also when the
    recipient is defaulted to the fresh address. *)
Theorem prepareTransaction_empty_recipient (X : Collaborators) (a : Account)
    (t : Transaction) (w : World) :
  t_recipient t = "" ->
  (exists calls,
     history (snd (prepareTransaction X a t w)) = (history w ++ calls)%list
     /\ forallb is_networkInfo_call calls = true) /\
  (forall t' w',
     prepareTransaction X a t w = (Ok t', w') ->
     t_gasLimit t' = t_gasLimit t /\ t_storageLimit t' = t_storageLimit t /\
     gasCache w' = gasCache w).
Proof.
  intros Hrec.
  assert (forall w1, prepareTransaction_limits X a t w1
                     = (Ok (t_gasLimit t, t_storageLimit t), w1)) as Hlim.
  { intros w1. unfold prepareTransaction_limits. rewrite Hrec. simpl.
    by rewrite andb_false_r. }
  split.
  - rewrite prepareTransaction_history.
    destruct (t_networkInfo t) as [ni|] eqn:Hni.
    + rewrite (prepareTransaction_networkInfo_present _ _ _ _ _ Hni), Hlim.
      exists []. by rewrite app_nil_r.
    + rewrite (prepareTransaction_networkInfo_absent _ _ _ _ Hni).
      destruct (getAccountNetworkInfo X (history w) a) as [ni|e];
        [|by eexists [_]].
      destruct (strict_eq (ni_family ni) "tezos");
        [rewrite Hlim|]; by eexists [_; _].
  - intros t' w' Hrun.
    destruct (prepareTransaction_inv X a t w t' w' Hrun)
      as (ni & w1 & gl & sl & w2 & Hni & Hlim' & Hcases).
    rewrite Hlim in Hlim'. injection Hlim' as <- <- <-.
    assert (gasCache w1 = gasCache w) as Hcache.
    { destruct (t_networkInfo t) as [ni0|] eqn:Hni0.
      - rewrite (prepareTransaction_networkInfo_present _ _ _ _ _ Hni0)
          in Hni. by injection Hni as _ <-.
      - rewrite (prepareTransaction_networkInfo_absent _ _ _ _ Hni0) in Hni.
        destruct (getAccountNetworkInfo X (history w) a) as [ni1|e];
          by injection Hni as _ <-. }
    simpl in Hcases.
    by destruct Hcases as [(_ & -> & ->)|(_ & -> & ->)].
Qed.

Lemma prepareTransaction_empty_recipient_witness :
  exists calls,
    history (snd (prepareTransaction Sample.engine Sample.alice
                    Sample.from_sub Sample.w0))
    = calls
    /\ forallb is_networkInfo_call calls = true.
Proof.
  destruct (prepareTransaction_empty_recipient Sample.engine Sample.alice
              Sample.from_sub Sample.w0 eq_refl)
    as [(calls & Hcalls & Hall) _].
  by exists calls.
Defined.

(** With a limit missing and a recipient, the second step starts by
    validating the recipient. *)
Lemma prepareTransaction_limits_validates X a t w :
  t_gasLimit t = None \/ t_storageLimit t = None ->
  t_recipient t <> "" ->
  exists calls,
    history (snd (prepareTransaction_limits X a t w))
    = (history w
       ++ call_validateRecipient (acc_currency a) (t_recipient t)
          :: calls)%list.
Proof.
  intros Hmiss Hrec. unfold prepareTransaction_limits.
  assert ((negb (toBoolean (t_gasLimit t))
           || negb (toBoolean (t_storageLimit t)))
          && toBoolean (t_recipient t) = true) as ->.
  { apply andb_true_iff. split.
    - destruct Hmiss as [-> | ->]; [done|]. apply orb_true_r.
    - apply not_false_iff_true. by rewrite toBoolean_string. }
  step. destruct (negb (toBoolean (recipientError _))); [|by exists []].
  unfold estimateGasLimitAndStorage, makeLRUCache,
    estimateGasLimitAndStorage_compute. step.
  destruct (cache_get _ (gasCache w)) as [[r|e]|]; simpl.
  1,2: (eexists; rewrite <- !app_assoc; reflexivity).
  destruct (asTezosLikeAccount _ _ _) as [[]|e]; simpl;
    [destruct (getEstimatedGasLimit _ _ _ _) as [g|e]; simpl;
     [destruct (getStorage _ _ _ _) as [s|e]; simpl|]|].
  all: eexists; rewrite <- !app_assoc; reflexivity.
Qed.

(** X7. A sub-account draft without recipient needs two preparations.  The
    first one gives it the fresh address of the account as recipient and
    leaves its limits as they were; the second one, because a limit is
    missing, starts by validating that fresh address. *)
Theorem subAccount_draft_is_prepared_twice (X : Collaborators) (a : Account)
    (t : Transaction) (w : World) (t1 : Transaction) (w1 : World) :
  targets_subAccount t ->
  t_recipient t = "" ->
  acc_freshAddress a <> "" ->
  t_gasLimit t = None \/ t_storageLimit t = None ->
  prepareTransaction X a t w = (Ok t1, w1) ->
  t_recipient t1 = acc_freshAddress a /\
  t_gasLimit t1 = t_gasLimit t /\ t_storageLimit t1 = t_storageLimit t /\
  forall w2,
    exists calls,
      history (snd (prepareTransaction X a t1 w2))
      = (history w2
         ++ call_validateRecipient (acc_currency a) (acc_freshAddress a)
            :: calls)%list.
Proof.
  intros Hsub Hrec Hfresh Hmiss Hrun.
  destruct (prepareTransaction_fields X a t w t1 w1 Hrun)
    as (_ & _ & _ & _ & _ & (ni1 & Hni1 & _) & _ & Hrec1).
  apply toBoolean_subAccountId in Hsub.
  rewrite Hsub, Hrec in Hrec1. simpl in Hrec1.
  assert (t_gasLimit t1 = t_gasLimit t /\ t_storageLimit t1 = t_storageLimit t)
    as [Hg Hs].
  { destruct (prepareTransaction_inv X a t w t1 w1 Hrun)
      as (ni & w0 & gl & sl & w2 & Hni & Hlim & Hcases).
    unfold prepareTransaction_limits in Hlim. rewrite Hrec in Hlim.
    simpl in Hlim. rewrite andb_false_r in Hlim.
    injection Hlim as <- <- <-. simpl in Hcases.
    by destruct Hcases as [(_ & -> & _)|(_ & -> & _)]. }
  do 3 (split; [done|]).
  intros w2. rewrite prepareTransaction_history,
    (prepareTransaction_networkInfo_present _ _ _ _ _ Hni1).
  rewrite <- Hrec1. apply prepareTransaction_limits_validates.
  - rewrite Hg, Hs. done.
  - by rewrite Hrec1.
Qed.

Lemma subAccount_draft_is_prepared_twice_witness :
  t_recipient Sample.from_sub_prepared = "tz1alice" /\
  t_gasLimit Sample.from_sub_prepared = None /\
  exists calls,
    history (snd (prepareTransaction Sample.engine Sample.alice
                    Sample.from_sub_prepared Sample.w0))
    = call_validateRecipient Sample.xtz "tz1alice" :: calls.
Proof.
  destruct (subAccount_draft_is_prepared_twice Sample.engine Sample.alice
              Sample.from_sub Sample.w0 Sample.from_sub_prepared
              (snd (prepareTransaction Sample.engine Sample.alice
                      Sample.from_sub Sample.w0))
              ltac:(by exists "KT1sub") eq_refl ltac:(discriminate)
              ltac:(by left) ltac:(vm_compute; reflexivity))
    as (Hrec & Hg & _ & Hcalls).
  split; [exact Hrec|]. split; [exact Hg|]. apply (Hcalls Sample.w0).
Defined.

(** X8. When a limit is missing, both limits come from the estimate: the one
    the draft may already have is replaced as well, and the preparation
    resolves to a new draft. *)
Theorem estimate_replaces_both_limits (X : Collaborators) (a : Account)
    (t : Transaction) (w : World) (ni : NetworkInfo) (w1 : World)
    (v : RecipientValidation) (w2 : World) (r : GasAndStorage)
    (w3 : World) :
  prepareTransaction_networkInfo X a t w = (Ok ni, w1) ->
  t_gasLimit t = None \/ t_storageLimit t = None ->
  t_recipient t <> "" ->
  await_validateRecipient X (acc_currency a) (t_recipient t) w1
  = (Ok v, w2) ->
  recipientError v = None ->
  estimateGasLimitAndStorage X a (t_recipient t) w2 = (Ok r, w3) ->
  exists t',
    prepareTransaction X a t w = (Ok t', allocated w3) /\
    t_ref t' = next_ref w3 /\
    t_gasLimit t' = Some (r_gasLimit r) /\
    t_storageLimit t' = Some (r_storage r).
Proof.
  intros Hni Hmiss Hrec Hval Hvalid Hest.
  assert (prepareTransaction_limits X a t w1
          = (Ok (Some (r_gasLimit r), Some (r_storage r)), w3)) as Hlim.
  { unfold prepareTransaction_limits.
    assert ((negb (toBoolean (t_gasLimit t))
             || negb (toBoolean (t_storageLimit t)))
            && toBoolean (t_recipient t) = true) as ->.
    { apply andb_true_iff. split.
      - destruct Hmiss as [-> | ->]; [done|]. apply orb_true_r.
      - apply not_false_iff_true. by rewrite toBoolean_string. }
    unfold mbind at 1, M_bind at 1. rewrite Hval, Hvalid. simpl.
    unfold mbind, M_bind. by rewrite Hest. }
  unfold prepareTransaction, mbind, M_bind. rewrite Hni, Hlim. step.
  assert ((t_gasLimit t !== Some (r_gasLimit r))
          || (t_storageLimit t !== Some (r_storage r)) = true) as Hchanged.
  { destruct Hmiss as [-> | ->]; [done|]. apply orb_true_r. }
  match goal with
  | |- context [if ?c then _ else _] =>
      assert (c = true) as ->
  end.
  { rewrite <- !orb_assoc. rewrite (orb_assoc (t_gasLimit t !== _)).
    rewrite Hchanged. simpl. apply orb_true_r. }
  by eexists.
Qed.

Lemma estimate_replaces_both_limits_witness :
  exists t',
    fst (prepareTransaction Sample.engine Sample.alice Sample.own_gas
                            Sample.w0) = Ok t' /\
    t_gasLimit Sample.own_gas = Some (mkBN 41 99999) /\
    t_gasLimit t' = Some (mkBN 3 10300) /\
    t_storageLimit t' = Some (mkBN 4 300).
Proof.
  destruct (estimate_replaces_both_limits Sample.engine Sample.alice
              Sample.own_gas Sample.w0 Sample.tezos_info Sample.w0
              (mkValidation None None)
              (snd (await_validateRecipient Sample.engine Sample.xtz
                      "tz1bob" Sample.w0))
              (mkGasAndStorage (mkBN 3 10300) (mkBN 4 300))
              (snd (estimateGasLimitAndStorage Sample.engine Sample.alice
                      "tz1bob"
                      (snd (await_validateRecipient Sample.engine Sample.xtz
                              "tz1bob" Sample.w0))))
              eq_refl ltac:(by right) ltac:(discriminate) eq_refl eq_refl
              eq_refl)
    as (t' & Hrun & _ & Hg & Hs).
  exists t'. rewrite Hrun. done.
Defined.

(** * [createTransaction] and [updateTransaction] *)

(** X9. A new draft is prepared with one fetch.  When the network info that
    is fetched is of the [tezos] family, the preparation calls nothing
    else, and the draft it resolves to carries that network info and its
    fees, has no limits and no recipient, and is stable: prepared again, it
    is returned as it is. *)
Theorem createTransaction_then_prepare (X : Collaborators) (a : Account)
    (w : World) (ni : NetworkInfo) :
  getAccountNetworkInfo X (history w) a = Ok ni ->
  ni_family ni = "tezos" ->
  exists t0 w0 t1 w1,
    createTransaction w = (Ok t0, w0) /\
    prepareTransaction X a t0 w0 = (Ok t1, w1) /\
    history w1
    = (history w
       ++ [call_getAccountNetworkInfo a;
           call_invariant true "tezos networkInfo expected"])%list /\
    t_networkInfo t1 = Some ni /\ t_fees t1 = Some (ni_fees ni) /\
    t_gasLimit t1 = None /\ t_storageLimit t1 = None /\
    t_recipient t1 = "" /\ bn_val (t_amount t1) = 0 /\
    forall w2, prepareTransaction X a t1 w2 = (Ok t1, w2).
Proof.
  intros Hfetch Hfamily.
  set (t0 := mkTransaction (S (next_ref w)) "tezos" "send"
                           (mkBN (next_ref w) 0) None None None "" None
                           None None).
  set (w0 := mkWorld (history w) (S (S (next_ref w))) (gasCache w)
                     (feesCache w)).
  exists t0, w0.
  assert (prepareTransaction_networkInfo X a t0 w0
          = (Ok ni,
             mkWorld (history w
                      ++ [call_getAccountNetworkInfo a;
                          call_invariant true "tezos networkInfo expected"])
                     (S (S (next_ref w))) (gasCache w) (feesCache w)))
    as Hni.
  { rewrite prepareTransaction_networkInfo_absent by done. simpl.
    rewrite Hfetch, Hfamily. done. }
  destruct (prepareTransaction X a t0 w0) as [[t1|e] w1] eqn:Hrun.
  2: { unfold prepareTransaction, mbind, M_bind in Hrun.
       rewrite Hni in Hrun. simpl in Hrun. discriminate. }
  exists t1, w1. split; [done|]. split; [done|].
  destruct (prepareTransaction_inv X a t0 w0 t1 w1 Hrun)
    as (ni' & w0' & gl & sl & w2 & Hni' & Hlim & Hcases).
  rewrite Hni in Hni'. injection Hni' as <- <-.
  simpl in Hlim. injection Hlim as <- <- <-. simpl in Hcases.
  destruct Hcases as [(Hsame & _)|(_ & -> & ->)]; [done|]. simpl.
  do 7 (split; [done|]).
  intros w2. apply prepareTransaction_stable; simpl;
    [by eexists|by eexists|by right|done].
Qed.

Lemma createTransaction_then_prepare_witness :
  exists t1 w1,
    prepareTransaction Sample.engine Sample.alice
      (mkTransaction 1001 "tezos" "send" (mkBN 1000 0) None None None ""
                     None None None)
      (mkWorld [] 1002 [] [])
    = (Ok t1, w1) /\
    t_fees t1 = Some (mkBN 2 1420).
Proof.
  destruct (createTransaction_then_prepare Sample.engine Sample.alice
              Sample.w0 Sample.tezos_info eq_refl eq_refl)
    as (t0 & w0 & t1 & w1 & [= <- <-] & Hrun & _ & _ & Hfees & _).
  by exists t1, w1.
Defined.

(** X10. An update resolves to a new object: in a world whose next free address
    is above the address of the draft, never to the draft it was given,
    whatever the patch.  With the empty patch the new draft has all the
    properties of the draft, so that a preparation sees it as unchanged. *)
Theorem updateTransaction_copies (t : Transaction) (patch : Patch)
    (w : World) :
  (t_ref t < next_ref w)%nat ->
  exists t',
    updateTransaction t patch w = (Ok t', allocated w) /\
    t' <> t /\
    (patch = empty_patch ->
     same_properties t t' /\ unchanged t t' = true).
Proof.
  intros Hwf. unfold updateTransaction. step. eexists.
  split; [reflexivity|]. split.
  - intros Heq. apply (f_equal t_ref) in Heq. simpl in Heq. lia.
  - intros ->. simpl. split; [by repeat split|].
    unfold unchanged. simpl.
    by rewrite strict_eq_option_refl_NetworkInfo,
      !strict_eq_option_refl_BigNumber, strict_eq_string_refl.
Qed.

Lemma updateTransaction_copies_witness :
  exists t',
    updateTransaction Sample.to_bob empty_patch Sample.w0
    = (Ok t', allocated Sample.w0) /\
    t' <> Sample.to_bob /\ same_properties Sample.to_bob t'.
Proof.
  destruct (updateTransaction_copies Sample.to_bob empty_patch Sample.w0
              ltac:(simpl; lia))
    as (t' & Hrun & Hne & Hsame).
  exists t'. split; [done|]. split; [done|]. by apply Hsame.
Defined.

(** X11. Two updates in a row give a draft with the properties that one update
    with the merged patch gives. *)
Theorem updateTransaction_compose (t : Transaction) (p1 p2 : Patch)
    (w : World) :
  exists t1 w1 t2 w2 t12 w12,
    updateTransaction t p1 w = (Ok t1, w1) /\
    updateTransaction t1 p2 w1 = (Ok t2, w2) /\
    updateTransaction t (patch_then p1 p2) w = (Ok t12, w12) /\
    same_properties t2 t12.
Proof.
  unfold updateTransaction. step. do 6 eexists.
  do 3 (split; [reflexivity|]).
  unfold same_properties. simpl.
  assert (forall {A} (x : A) (o1 o2 : option A),
            default (default x o1) o2
            = default x (match o2 with Some y => Some y | None => o1 end))
    as Hdefault by (by intros A x o1 []).
  by rewrite !Hdefault.
Qed.

(** X12. Changing the amount or the recipient of a prepared draft does not
    trigger a new estimate.  If the draft has its network info, its fees
    and both limits, and the patch touches none of these four and leaves a
    recipient that is not empty, the preparation of the updated draft
    calls nothing and returns it as it is, with the limits of the draft
    that was updated. *)
Theorem update_then_prepare_keeps_limits (X : Collaborators) (a : Account)
    (t : Transaction) (patch : Patch) (w : World) :
  is_Some (t_networkInfo t) ->
  is_Some (t_fees t) ->
  is_Some (t_gasLimit t) ->
  is_Some (t_storageLimit t) ->
  p_networkInfo patch = None -> p_fees patch = None ->
  p_gasLimit patch = None -> p_storageLimit patch = None ->
  default (t_recipient t) (p_recipient patch) <> "" ->
  exists t1 w1,
    updateTransaction t patch w = (Ok t1, w1) /\
    t_recipient t1 = default (t_recipient t) (p_recipient patch) /\
    t_gasLimit t1 = t_gasLimit t /\
    t_storageLimit t1 = t_storageLimit t /\
    forall w2, prepareTransaction X a t1 w2 = (Ok t1, w2).
Proof.
  intros Hni Hf Hg Hs Hpn Hpf Hpg Hps Hrec.
  unfold updateTransaction. step. do 2 eexists.
  split; [reflexivity|]. simpl. rewrite Hpn, Hpf, Hpg, Hps. simpl.
  do 3 (split; [done|]).
  intros w2. apply prepareTransaction_stable; simpl; try done. by left.
Qed.

Lemma update_then_prepare_keeps_limits_witness :
  exists t1 w1,
    updateTransaction Sample.to_bob_prepared
      (mkPatch None None None None None None (Some "tz1carol") None None
               None)
      Sample.w0
    = (Ok t1, w1) /\
    t_recipient t1 = "tz1carol" /\
    t_gasLimit t1 = Some (mkBN 3 10300) /\
    prepareTransaction Sample.engine Sample.alice t1 w1 = (Ok t1, w1).
Proof.
  destruct (update_then_prepare_keeps_limits Sample.engine Sample.alice
              Sample.to_bob_prepared
              (mkPatch None None None None None None (Some "tz1carol") None
                       None None)
              Sample.w0)
    as (t1 & w1 & Hrun & Hrec & Hg & _ & Hstable);
    try (by eexists); try done.
  exists t1, w1. by rewrite Hrun, Hrec, Hg, Hstable.
Defined.

(** * More on [getTransactionStatus] *)

(** The fee step ends in one way only. *)
Lemma fees_outcome_functional X a t w ef errs0 w2 ef' errs0' w2' :
  fees_outcome X a t w ef errs0 w2 ->
  fees_outcome X a t w ef' errs0' w2' ->
  ef = ef' /\ errs0 = errs0' /\ w2 = w2'.
Proof.
  intros H1 H2.
  inversion H1 as [Hf|f w3 [f0 Hf] Hc|e w3 [f0 Hf] Hc Hn|e w3 [f0 Hf] Hc Hn];
    inversion H2
      as [Hf'|f' w3' [f0' Hf'] Hc'|e' w3' [f0' Hf'] Hc' Hn'
          |e' w3' [f0' Hf'] Hc' Hn'];
    subst; try congruence; try done.
  all: rewrite Hc in Hc'; by injection Hc' as <- <-.
Qed.

(** The warnings of a report: the fee warning, and what the recipient
    validator warns about. *)
Lemma getTransactionStatus_warnings X a t w :
  exists ef errs0 w2 st w',
    fees_outcome X a t w ef errs0 w2 /\
    getTransactionStatus X a t w = (Ok st, w') /\
    warnings st !! "recipient"
    = recipientWarning (validateRecipient X (history w2) (acc_currency a)
                                          (t_recipient t)) /\
    (forall k, k <> "feeTooHigh" -> k <> "recipient" ->
               warnings st !! k = None).
Proof.
  destruct (getTransactionStatus_shape X a t w)
    as (ef & errs0 & w2 & st & w' & Hfees & Hrun & _).
  exists ef, errs0, w2, st, w'. do 2 (split; [done|]).
  revert Hrun. unfold getTransactionStatus. step.
  inversion Hfees
    as [Hf|f w2' [f0 Hf] Hc|e w2' [f0 Hf] Hc Hn|e w2' [f0 Hf] Hc Hn];
    subst; rewrite Hf; simpl; fold (allocated w); rewrite ?Hc; simpl.
  all: try (destruct (String.eqb_spec (err_name e) "NotEnoughBalance");
            try congruence; [idtac]); simpl.
  all: destruct (toBoolean (t_useAllAmount t)) eqn:Hu; step.
  all: match goal with
       |- context [gt ?x 0] => destruct (gt x 0) eqn:Hgt
       end; step.
  all: match goal with
       |- context [validateRecipient _ ?h ?c ?r] =>
         destruct (validateRecipient _ h c r) as [[re|] [rw|]] eqn:Hv
       end; simpl.
  all: intros [= <- <-]; simpl.
  all: split; [|intros k Hfee Hrec].
  all: try match goal with
           |- context [if ?b then _ else _] => destruct b
           end.
  all: by simplify_map_eq.
Qed.

(** X13. The keys of a report.  Errors come under [fees], [amount],
    [transaction] and [recipient] only, warnings under [feeTooHigh] and
    [recipient] only; of [fees], [amount] and [transaction] at most one is
    there, and [fees] is there exactly when the draft has no fees. *)
Theorem status_keys (X : Collaborators) (a : Account) (t : Transaction)
    (w : World) (st : TransactionStatus) (w' : World) :
  getTransactionStatus X a t w = (Ok st, w') ->
  (forall k, is_Some (errors st !! k) ->
             k ∈ ["fees"; "amount"; "transaction"; "recipient"]) /\
  (forall k, is_Some (warnings st !! k) -> k ∈ ["feeTooHigh"; "recipient"])
  /\
  (forall k1 k2,
     k1 ∈ ["fees"; "amount"; "transaction"] ->
     k2 ∈ ["fees"; "amount"; "transaction"] ->
     is_Some (errors st !! k1) -> is_Some (errors st !! k2) -> k1 = k2) /\
  (is_Some (errors st !! "fees") <-> t_fees t = None).
Proof.
  intros Hrun.
  destruct (getTransactionStatus_shape X a t w)
    as (ef & errs0 & w2 & st0 & w0 & Hfees & Hrun0 & _ & _ & _ & _ & Herr
        & _).
  rewrite Hrun in Hrun0. injection Hrun0 as <- <-.
  destruct (getTransactionStatus_warnings X a t w)
    as (ef' & errs0' & w2' & st0 & w0 & _ & Hrun0 & _ & Hwarn).
  rewrite Hrun in Hrun0. injection Hrun0 as <- <-.
  assert (forall k, k <> "recipient" -> is_Some (errors st !! k) ->
            (k = "fees" /\ t_fees t = None
             \/ (k = "amount" \/ k = "transaction") /\ is_Some (t_fees t))
            /\ forall k', k' <> "recipient" -> is_Some (errors st !! k') ->
                          k' = k) as Hone.
  { intros k Hk. rewrite Herr by done.
    inversion Hfees as [Hf|f w3 Hf Hc|e w3 Hf Hc Hn|e w3 Hf Hc Hn]; subst.
    all: intros [e0 He0].
    all: try (by rewrite lookup_empty in He0).
    all: apply lookup_insert_Some in He0 as [[<- <-]|[_ He0]];
      [|by rewrite lookup_empty in He0].
    all: split; [by auto|].
    all: intros k' Hk'; rewrite Herr by done; intros [e1 He1].
    all: apply lookup_insert_Some in He1 as [[<- <-]|[_ He1]];
      [done|by rewrite lookup_empty in He1]. }
  assert (forall k, k ∈ ["fees"; "amount"; "transaction"] ->
                    k <> "recipient") as Hthree.
  { intros k Hk. rewrite !elem_of_cons, elem_of_nil in Hk.
    by destruct Hk as [->|[->|[->|[]]]]. }
  split; [|split; [|split]].
  - intros k Hk. rewrite !elem_of_cons.
    destruct (decide (k = "recipient")) as [->|Hne]; [by auto|].
    destruct (Hone k Hne Hk) as [[[-> _]|[[->| ->] _]] _]; by auto.
  - intros k Hk. rewrite !elem_of_cons.
    destruct (decide (k = "feeTooHigh")) as [->|Hfee]; [by auto|].
    destruct (decide (k = "recipient")) as [->|Hrec]; [by auto|].
    rewrite Hwarn in Hk by done. by destruct Hk.
  - intros k1 k2 Hk1 Hk2 H1 H2.
    destruct (Hone k2 (Hthree k2 Hk2) H2) as [_ Huniq].
    apply Huniq; [by apply Hthree|done].
  - split.
    + intros Hk. by destruct (Hone "fees" ltac:(done) Hk)
        as [[[_ ?]|[[?|?] _]] _].
    + intros Hf. rewrite Herr by done.
      destruct (fees_outcome_missing X a t w ef errs0 w2 Hf Hfees)
        as (_ & -> & _).
      by rewrite lookup_insert_eq.
Qed.

Lemma status_keys_witness :
  exists st,
    fst (getTransactionStatus Sample.engine Sample.alice Sample.too_much
                              Sample.w0) = Ok st /\
    is_Some (errors st !! "amount") /\ errors st !! "transaction" = None.
Proof.
  destruct (getTransactionStatus Sample.engine Sample.alice Sample.too_much
                                 Sample.w0) as [[st|e] w'] eqn:Hrun;
    [|by vm_compute in Hrun].
  exists st. split; [done|].
  destruct (status_keys Sample.engine Sample.alice Sample.too_much
              Sample.w0 st w' Hrun) as (_ & _ & Hone & _).
  assert (is_Some (errors st !! "amount")) as Hamount.
  { vm_compute in Hrun. injection Hrun as <- _. by eexists. }
  split; [done|].
  destruct (errors st !! "transaction") as [e|] eqn:Htx; [|done].
  exfalso.
  assert ("amount" = "transaction") as Heq; [|discriminate Heq].
  apply Hone; rewrite ?elem_of_cons, ?Htx; auto.
Defined.

(** X14. The recipient entries of a report are what the validator answers to
    the last call of the evaluation, and nothing else. *)
Theorem status_recipient (X : Collaborators) (a : Account) (t : Transaction)
    (w : World) (st : TransactionStatus) (w' : World) :
  getTransactionStatus X a t w = (Ok st, w') ->
  exists h,
    history w'
    = (h ++ [call_validateRecipient (acc_currency a) (t_recipient t)])%list
    /\
    errors st !! "recipient"
    = recipientError (validateRecipient X h (acc_currency a) (t_recipient t))
    /\
    warnings st !! "recipient"
    = recipientWarning (validateRecipient X h (acc_currency a)
                                          (t_recipient t)).
Proof.
  intros Hrun.
  destruct (getTransactionStatus_shape X a t w)
    as (ef & errs0 & w2 & st0 & w0 & Hfees & Hrun0 & _ & _ & _ & _ & _
        & Herr & _ & Hhist & _).
  rewrite Hrun in Hrun0. injection Hrun0 as <- <-.
  destruct (getTransactionStatus_warnings X a t w)
    as (ef' & errs0' & w2' & st0 & w0 & Hfees' & Hrun0 & Hwarn & _).
  rewrite Hrun in Hrun0. injection Hrun0 as <- <-.
  destruct (fees_outcome_functional _ _ _ _ _ _ _ _ _ _ Hfees Hfees')
    as (_ & _ & <-).
  by exists (history w2).
Qed.

Lemma status_recipient_witness :
  exists st,
    fst (getTransactionStatus Sample.engine Sample.alice Sample.to_bob
                              Sample.w0) = Ok st /\
    errors st !! "recipient" = None /\ warnings st !! "recipient" = None.
Proof.
  destruct (getTransactionStatus Sample.engine Sample.alice Sample.to_bob
                                 Sample.w0) as [[st|e] w'] eqn:Hrun;
    [|by vm_compute in Hrun].
  exists st. split; [done|].
  destruct (status_recipient Sample.engine Sample.alice Sample.to_bob
              Sample.w0 st w' Hrun) as (h & _ & -> & ->).
  done.
Defined.

(** The fee step when the fee calculator resolves. *)
Lemma fees_outcome_priced X a t w ef errs0 w2 f w3 :
  is_Some (t_fees t) ->
  calculateFees X a t w = (Ok f, w3) ->
  fees_outcome X a t w ef errs0 w2 ->
  ef = f /\ errs0 = ∅ /\ w2 = allocated w3.
Proof.
  intros [f0 Hf] Hok Hfees.
  pose proof (calculateFees_allocated X a t w) as Halloc.
  rewrite Hok in Halloc. simpl in Halloc.
  inversion Hfees as [Hf'|f' w2' _ Hc|e' w2' _ Hc Hn|e' w2' _ Hc Hn];
    try congruence.
  rewrite Halloc in Hc. injection Hc as <- <-. by subst.
Qed.

(** X15. When the draft has fees and the fee calculator resolves, the estimated
    fees of the report are what it resolved to and nothing is recorded
    under [fees], [amount] or [transaction]: the evaluation itself never
    compares what is spent with the balance. *)
Theorem priced_status (X : Collaborators) (a : Account) (t : Transaction)
    (w : World) (f : BigNumber) (w2 : World) :
  is_Some (t_fees t) ->
  calculateFees X a t w = (Ok f, w2) ->
  exists st w',
    getTransactionStatus X a t w = (Ok st, w') /\
    estimatedFees st = f /\
    errors st !! "fees" = None /\
    errors st !! "amount" = None /\
    errors st !! "transaction" = None /\
    (t_useAllAmount t <> Some true ->
     bn_val (totalSpent st) = bn_val (t_amount t) + bn_val f).
Proof.
  intros Hf Hok.
  destruct (getTransactionStatus_shape X a t w)
    as (ef & errs0 & w3 & st & w' & Hfees & Hrun & Hef & Hpart & _ & _
        & Herr & _).
  destruct (fees_outcome_priced X a t w ef errs0 w3 f w2 Hf Hok Hfees)
    as (-> & -> & ->).
  exists st, w'. do 2 (split; [done|]). rewrite !Herr by done.
  do 3 (split; [done|]).
  intros Hu. apply Hpart. apply not_true_is_false.
  by rewrite toBoolean_useAllAmount.
Qed.

Lemma priced_status_witness :
  exists st w',
    getTransactionStatus Sample.engine Sample.alice Sample.to_bob_prepared
                         Sample.w0
    = (Ok st, w') /\
    estimatedFees st = mkBN 5 1420 /\ errors st !! "amount" = None.
Proof.
  destruct (priced_status Sample.engine Sample.alice Sample.to_bob_prepared
              Sample.w0 (mkBN 5 1420)
              (snd (calculateFees Sample.engine Sample.alice
                      Sample.to_bob_prepared Sample.w0)))
    as (st & w' & Hrun & Hef & _ & Hamount & _).
  - by eexists.
  - vm_compute. reflexivity.
  - by exists st, w'.
Defined.

(** X16. A draft that went through a preparation is never reported with the
    [FeeNotLoaded] error. *)
Theorem prepared_draft_has_no_fee_error (X : Collaborators) (a : Account)
    (t : Transaction) (w : World) (t1 : Transaction) (w1 : World)
    (w2 : World) :
  prepareTransaction X a t w = (Ok t1, w1) ->
  exists st w3,
    getTransactionStatus X a t1 w2 = (Ok st, w3) /\
    errors st !! "fees" = None.
Proof.
  intros Hrun.
  destruct (prepared_draft_fees_present X a t w t1 w1 Hrun) as [f Hf].
  destruct (getTransactionStatus_shape X a t1 w2)
    as (ef & errs0 & w3 & st & w' & Hfees & Hstatus & _ & _ & _ & _ & Herr
        & _).
  exists st, w'. split; [done|]. rewrite Herr by done.
  inversion Hfees; subst; try congruence; by simplify_map_eq.
Qed.

Lemma prepared_draft_has_no_fee_error_witness :
  exists st w3,
    getTransactionStatus Sample.engine Sample.alice Sample.to_bob_once
                         Sample.w0
    = (Ok st, w3) /\
    errors st !! "fees" = None.
Proof.
  apply (prepared_draft_has_no_fee_error Sample.engine Sample.alice
           Sample.to_bob Sample.w0 Sample.to_bob_once
           (snd (prepareTransaction Sample.engine Sample.alice
                   Sample.to_bob Sample.w0))
           Sample.w0).
  vm_compute. reflexivity.
Defined.

(** X17. An empty sub-account identifier counts as none: the parent account is
    the resolved account, even when the account has a sub-account whose
    identifier is the empty string, and the recipient is not read-only. *)
Theorem empty_subAccountId_is_none (X : Collaborators) (a : Account)
    (t : Transaction) (w : World) :
  t_subAccountId t = Some "" ->
  getTransactionStatus_account a t = Parent a /\
  exists st w',
    getTransactionStatus X a t w = (Ok st, w') /\
    recipientIsReadOnly st = false /\
    (t_useAllAmount t = Some true -> totalSpent st = acc_balance a).
Proof.
  intros Hid.
  assert (getTransactionStatus_account a t = Parent a) as Hacc.
  { unfold getTransactionStatus_account, getTransactionStatus_subAcc.
    by rewrite Hid. }
  split; [done|].
  destruct (getTransactionStatus_shape X a t w)
    as (ef & errs0 & w2 & st & w' & _ & Hrun & _ & _ & Hall & _ & _ & _
        & Hro & _).
  exists st, w'. split; [done|]. split.
  - rewrite Hro, Hid. done.
  - intros Hu. apply toBoolean_useAllAmount in Hu.
    rewrite Hacc in Hall. by apply Hall.
Qed.

Lemma empty_subAccountId_is_none_witness :
  getTransactionStatus_account
    (mkAccount "parent" (mkBN 1 50) Sample.xtz
               (Some [mkSubAccount "" (mkBN 2 7)]) "tz1parent")
    (mkTransaction 3 "tezos" "send" (mkBN 4 0) None None None "tz1bob" None
                   (Some "") (Some true))
  = Parent (mkAccount "parent" (mkBN 1 50) Sample.xtz
                      (Some [mkSubAccount "" (mkBN 2 7)]) "tz1parent").
Proof.
  by destruct (empty_subAccountId_is_none Sample.engine
                 (mkAccount "parent" (mkBN 1 50) Sample.xtz
                            (Some [mkSubAccount "" (mkBN 2 7)]) "tz1parent")
                 (mkTransaction 3 "tezos" "send" (mkBN 4 0) None None None
                                "tz1bob" None (Some "") (Some true))
                 Sample.w0 eq_refl) as [Hacc _].
Defined.

(** What [find] finds: the first sub-account with the identifier. *)
Lemma find_first_match (sid : string) (before after : list SubAccount)
    (sub : SubAccount) :
  sub_id sub = sid ->
  (forall x, x ∈ before -> sub_id x <> sid) ->
  List.find (fun ta => strict_eq (Some (sub_id ta)) (Some sid))
            (before ++ sub :: after)%list
  = Some sub.
Proof.
  intros Hsub Hbefore. induction before as [|x before IH]; simpl.
  - unfold strict_eq, option_strict_eq, strict_eq, string_strict_eq.
    by rewrite Hsub, String.eqb_refl.
  - unfold strict_eq at 1, option_strict_eq, strict_eq, string_strict_eq.
    destruct (String.eqb_spec (sub_id x) sid) as [Heq|_].
    + exfalso. apply (Hbefore x); [apply list_elem_of_here|done].
    + apply IH. intros y Hy. apply Hbefore. by apply list_elem_of_further.
Qed.

(** X18. When the draft names a sub-account the account has, the resolved
    account is the first sub-account with that identifier, and in
    all-balance mode the report is computed from its balance: the total is
    that balance, the final amount that balance minus the estimated
    fees. *)
Theorem subAccount_first_match (X : Collaborators) (a : Account)
    (t : Transaction) (w : World) (sid : string)
    (before after : list SubAccount) (sub : SubAccount) :
  t_subAccountId t = Some sid ->
  sid <> "" ->
  acc_subAccounts a = Some (before ++ sub :: after)%list ->
  sub_id sub = sid ->
  (forall x, x ∈ before -> sub_id x <> sid) ->
  getTransactionStatus_account a t = Child sub /\
  exists st w',
    getTransactionStatus X a t w = (Ok st, w') /\
    recipientIsReadOnly st = true /\
    (t_useAllAmount t = Some true ->
     totalSpent st = sub_balance sub /\
     bn_val (amount st)
     = bn_val (sub_balance sub) - bn_val (estimatedFees st)).
Proof.
  intros Hid Hne Hsubs Hsub Hbefore.
  assert (toBoolean (t_subAccountId t) = true) as Htruthy.
  { apply toBoolean_subAccountId. by exists sid. }
  assert (getTransactionStatus_account a t = Child sub) as Hacc.
  { unfold getTransactionStatus_account, getTransactionStatus_subAcc.
    rewrite Htruthy, Hsubs, Hid. simpl.
    by rewrite (find_first_match sid before after sub Hsub Hbefore). }
  split; [done|].
  destruct (getTransactionStatus_shape X a t w)
    as (ef & errs0 & w2 & st & w' & _ & Hrun & Hef & _ & Hall & _ & _ & _
        & Hro & _).
  exists st, w'. split; [done|]. split; [by rewrite Hro|].
  intros Hu. apply toBoolean_useAllAmount in Hu.
  rewrite Hacc in Hall. simpl in Hall. rewrite Hef. by apply Hall.
Qed.

Lemma subAccount_first_match_witness :
  getTransactionStatus_account Sample.alice Sample.send_all_sub
  = Child (mkSubAccount "KT1sub" (mkBN 11 700000)).
Proof.
  by destruct (subAccount_first_match Sample.engine Sample.alice
                 Sample.send_all_sub Sample.w0 "KT1sub" [] []
                 (mkSubAccount "KT1sub" (mkBN 11 700000))
                 eq_refl ltac:(discriminate) eq_refl eq_refl
                 ltac:(by intros x Hx; apply elem_of_nil in Hx))
    as [Hacc _].
Defined.

(** X19. Sending everything from an account whose balance does not cover the
    fees: when the fee calculator resolves to fees that are not below the
    balance of the resolved account, the report has that balance as total,
    a final amount that is zero or negative, no fee warning and no error on
    the amount. *)
Theorem all_balance_below_fees (X : Collaborators) (a : Account)
    (t : Transaction) (w : World) (f : BigNumber) (w2 : World) :
  is_Some (t_fees t) ->
  calculateFees X a t w = (Ok f, w2) ->
  t_useAllAmount t = Some true ->
  bn_val (balance (getTransactionStatus_account a t)) <= bn_val f ->
  exists st w',
    getTransactionStatus X a t w = (Ok st, w') /\
    totalSpent st = balance (getTransactionStatus_account a t) /\
    bn_val (amount st)
    = bn_val (balance (getTransactionStatus_account a t)) - bn_val f /\
    bn_val (amount st) <= 0 /\
    warnings st !! "feeTooHigh" = None /\
    errors st !! "amount" = None.
Proof.
  intros Hf Hok Hu Hbelow.
  destruct (getTransactionStatus_shape X a t w)
    as (ef & errs0 & w3 & st & w' & Hfees & Hrun & Hef & _ & Hall & Hwarn
        & Herr & _).
  destruct (fees_outcome_priced X a t w ef errs0 w3 f w2 Hf Hok Hfees)
    as (-> & -> & ->).
  apply toBoolean_useAllAmount in Hu. destruct (Hall Hu) as [Htotal Hamount].
  exists st, w'. do 3 (split; [done|]).
  split; [lia|]. split.
  - rewrite Hwarn. unfold gt.
    destruct (Z.gtb_spec (bn_val (amount st)) 0); [lia|done].
  - by rewrite Herr.
Qed.

Lemma all_balance_below_fees_witness :
  exists st w',
    getTransactionStatus (Sample.engine_priced 6000000) Sample.alice
                         Sample.send_all Sample.w0
    = (Ok st, w') /\
    bn_val (amount st) = 5000000 - 6000000 /\
    warnings st !! "feeTooHigh" = None.
Proof.
  destruct (all_balance_below_fees (Sample.engine_priced 6000000)
              Sample.alice Sample.send_all Sample.w0 (mkBN 5 6000000)
              (snd (calculateFees (Sample.engine_priced 6000000)
                      Sample.alice Sample.send_all Sample.w0)))
    as (st & w' & Hrun & _ & Hamount & _ & Hwarn & _).
  - by eexists.
  - vm_compute. reflexivity.
  - reflexivity.
  - simpl. lia.
  - by exists st, w'.
Defined.

(** * More on the two cached functions *)

(** ** Splitting a text at a separator *)

Import Stdlib.Strings.Ascii.

Lemma append_assoc (x y z : string) : (x +:+ y) +:+ z = x +:+ y +:+ z.
Proof.
  induction x as [|c x IH]; [done|]. rewrite !append_cons. by rewrite IH.
Qed.

Lemma without_append_separator c (x a : string) :
  ~ without c (x +:+ String c a).
Proof.
  intros H. apply H. rewrite list_ascii_of_append. apply in_or_app.
  right. by left.
Qed.

(** The first separator is found after a text without separator. *)
Lemma split_first c (x y a b : string) :
  without c x -> without c y ->
  x +:+ String c a = y +:+ String c b -> x = y /\ a = b.
Proof.
  revert y. induction x as [|d x IH]; intros [|d' y] Hx Hy.
  - by intros [= ->].
  - rewrite append_cons. intros [= <- _]. exfalso. apply Hy. by left.
  - rewrite append_cons. intros [= -> _]. exfalso. apply Hx. by left.
  - rewrite !append_cons. intros [= -> Heq].
    destruct (IH y) as [-> ->]; try done.
    + intros Hin. apply Hx. by right.
    + intros Hin. apply Hy. by right.
Qed.

(** The last separator is found before a text without separator. *)
Lemma split_last c (x y a b : string) :
  without c a -> without c b ->
  x +:+ String c a = y +:+ String c b -> x = y /\ a = b.
Proof.
  revert y. induction x as [|d x IH]; intros [|d' y] Ha Hb.
  - by intros [= ->].
  - simpl. rewrite append_cons. intros [= <- ->].
    by apply without_append_separator in Ha.
  - simpl. rewrite append_cons. intros [= -> <-].
    by apply without_append_separator in Hb.
  - rewrite !append_cons. intros [= -> Heq].
    by destruct (IH y Ha Hb Heq) as [-> ->].
Qed.

Lemma without_empty c : without c "".
Proof. by intros []. Qed.

(** Five segments joined by underscores are known from the whole, when
    the first one and the last three have no underscore. *)
Lemma five_segments_inj (A A' R R' G G' F F' S S' : string) :
  without "_"%char A -> without "_"%char A' ->
  without "_"%char G -> without "_"%char G' ->
  without "_"%char F -> without "_"%char F' ->
  without "_"%char S -> without "_"%char S' ->
  A +:+ "_" +:+ R +:+ "_" +:+ G +:+ "_" +:+ F +:+ "_" +:+ S
  = A' +:+ "_" +:+ R' +:+ "_" +:+ G' +:+ "_" +:+ F' +:+ "_" +:+ S' ->
  A = A' /\ R = R' /\ G = G' /\ F = F' /\ S = S'.
Proof.
  intros HA HA' HG HG' HF HF' HS HS' H.
  destruct (split_first "_"%char A A' _ _ HA HA' H) as [-> H1].
  assert (forall r g f s : string,
            r +:+ "_" +:+ g +:+ "_" +:+ f +:+ "_" +:+ s
            = (r +:+ "_" +:+ g +:+ "_" +:+ f) +:+ String "_" s) as Hlast
    by (intros; by rewrite !append_assoc).
  rewrite !Hlast in H1.
  destruct (split_last "_"%char _ _ S S' HS HS' H1) as [H2 ->].
  assert (forall r g f : string,
            r +:+ "_" +:+ g +:+ "_" +:+ f
            = (r +:+ "_" +:+ g) +:+ String "_" f) as Hlast2
    by (intros; by rewrite !append_assoc).
  rewrite !Hlast2 in H2.
  destruct (split_last "_"%char _ _ F F' HF HF' H2) as [H3 ->].
  destruct (split_last "_"%char R R' G G' HG HG' H3) as [-> ->].
  done.
Qed.

(** ** The key of the fee calculator, again *)

Section CacheKeyInjective.
Variable X : Collaborators.

(** What is asked of [toString] here: it tells numbers apart, never gives
    the empty string and never writes an underscore. *)
Hypothesis toString_injective :
  forall x y : Z, BigNumber_toString X x = BigNumber_toString X y -> x = y.
Hypothesis toString_nonempty :
  forall x : Z, BigNumber_toString X x <> "".
Hypothesis toString_plain :
  forall x : Z, without "_"%char (BigNumber_toString X x).

Lemma segment_plain (o : option BigNumber) :
  without "_"%char (segment (BigNumber_toString X) (number_or_absent o)).
Proof using toString_plain.
  destruct o; simpl; [apply toString_plain|apply without_empty].
Qed.

(** X20. For one account identifier the key is one-to-one: two drafts have the
    same key exactly when they agree on [amount], [recipient], [gasLimit],
    [storageLimit] and [fees], whatever else they differ on. *)
Theorem calculateFees_key_injective (a1 a2 : Account)
    (t1 t2 : Transaction) :
  acc_id a1 = acc_id a2 ->
  (calculateFees_key X a1 t1 = calculateFees_key X a2 t2
   <-> forall f, key_field f t1 = key_field f t2).
Proof using toString_injective toString_nonempty toString_plain.
  intros Hid. rewrite !calculateFees_key_segments, Hid. split.
  - intros Hkey. do 2 apply append_inv_head in Hkey.
    apply five_segments_inj in Hkey
      as (Ha & Hr & Hg & Hf & Hs);
      try apply segment_plain; try apply toString_plain.
    intros f. apply (segment_inj X toString_injective toString_nonempty).
    by destruct f.
  - intros Hsame.
    by rewrite !(Hsame key_amount), !(Hsame key_recipient),
      !(Hsame key_gasLimit), !(Hsame key_fees), !(Hsame key_storageLimit).
Qed.
End CacheKeyInjective.

Lemma decimal_plain (x : Z) : without "_"%char (Sample.decimal x).
Proof.
  assert (forall u, without "_"%char
                      (DecimalString.NilEmpty.string_of_uint u)) as Huint.
  { induction u; simpl; unfold without; simpl;
      try (intros [H|H]; [discriminate|by apply IHu]).
    by intros []. }
  assert (forall u, without "_"%char
                      (DecimalString.NilZero.string_of_uint u)) as Hzero.
  { intros u. unfold DecimalString.NilZero.string_of_uint.
    destruct u; try apply Huint.
    unfold without. simpl. by intros [H|[]]. }
  unfold Sample.decimal, DecimalString.NilZero.string_of_int.
  destruct (Z.to_int x) as [u|u]; [apply Hzero|].
  unfold without. simpl. intros [H|H]; [discriminate|by apply (Hzero u)].
Qed.

Lemma calculateFees_key_injective_witness :
  calculateFees_key Sample.engine Sample.alice Sample.send_all
  = calculateFees_key Sample.engine Sample.alice Sample.send_all_sub.
Proof.
  apply (calculateFees_key_injective Sample.engine decimal_injective
           decimal_nonempty decimal_plain Sample.alice Sample.alice
           Sample.send_all Sample.send_all_sub eq_refl).
  by intros [].
Defined.





(** ** The key of the estimator *)



(** Without that, two inputs may share a key: the bar of an identifier is
    taken for the separator. *)
Example estimateGasLimitAndStorage_key_collision :
  estimateGasLimitAndStorage_key
    (mkAccount "js:1" (mkBN 1 0) Sample.xtz None "") "tz1|x"
  = estimateGasLimitAndStorage_key
      (mkAccount "js:1|tz1" (mkBN 1 0) Sample.xtz None "") "x".
Proof. reflexivity. Qed.

(** * The operation of a broadcast transaction *)

(** What the account identifier of an operation is: [subAccountId || id]. *)
Lemma accountId_cases (account : Account) (t : Transaction) :
  let accountId :=
    match t_subAccountId t with
    | Some subAccountId =>
        if toBoolean subAccountId then subAccountId
        else acc_id account
    | None => acc_id account
    end in
  (targets_subAccount t -> t_subAccountId t = Some accountId) /\
  (~ targets_subAccount t -> accountId = acc_id account).
Proof.
  simpl. split.
  - intros (sid & -> & Hne).
    assert (toBoolean sid = true) as ->; [|done].
    apply not_false_iff_true. by rewrite toBoolean_string.
  - intros Hnot. destruct (t_subAccountId t) as [sid|] eqn:Hid; [|done].
    destruct (toBoolean sid) eqn:Hsid; [|done].
    exfalso. apply Hnot. exists sid. split; [done|].
    intros ->. discriminate.
Qed.

(** What an operation that was built says, and what was called for it. *)
Lemma tezos_inv E account signedTransaction builded coreAccount t s op s' :
  Broadcast.tezos E account signedTransaction builded coreAccount t s
  = (Ok op, s') ->
  exists tla rcv snd r58 s58 fr fz gr gz,
    Broadcast.as_TezosLikeAccount coreAccount = Ok tla /\
    Broadcast.getReceiver builded = Ok rcv /\
    Broadcast.getSender builded = Ok snd /\
    Broadcast.toBase58 rcv = Ok r58 /\
    Broadcast.toBase58 snd = Ok s58 /\
    Broadcast.getFees builded = Ok fr /\
    Broadcast.libcoreAmountToBigNumber E fr = Ok fz /\
    Broadcast.getGasLimit builded = Ok gr /\
    Broadcast.libcoreAmountToBigNumber E gr = Ok gz /\
    (if Broadcast.getEnv E "DISABLE_TRANSACTION_BROADCAST"
     then Broadcast.op_hash op = ""
     else Broadcast.broadcastRawTransaction tla signedTransaction
          = Ok (Broadcast.op_hash op)) /\
    Broadcast.op_id op
    = Broadcast.op_accountId op +:+ "-" +:+ Broadcast.op_hash op
      +:+ "-OUT" /\
    Broadcast.op_accountId op
    = match t_subAccountId t with
      | Some subAccountId =>
          if toBoolean subAccountId then subAccountId
          else acc_id account
      | None => acc_id account
      end /\
    bn_val (Broadcast.op_fee op) = fz * gz /\
    (toBoolean (t_useAllAmount t) = true ->
     Broadcast.op_value op = acc_balance account) /\
    (toBoolean (t_useAllAmount t) = false ->
     bn_val (Broadcast.op_value op) = bn_val (t_amount t) + fz * gz) /\
    Broadcast.op_type op = "OUT" /\
    Broadcast.op_senders op = [s58] /\
    Broadcast.op_recipients op = [r58] /\
    Broadcast.op_blockHash op = None /\
    Broadcast.op_blockHeight op = None /\
    Broadcast.events s'
    = (Broadcast.events s
       ++ [Broadcast.ev_asTezosLikeAccount;
           Broadcast.ev_getEnv "DISABLE_TRANSACTION_BROADCAST"]
       ++ (if Broadcast.getEnv E "DISABLE_TRANSACTION_BROADCAST" then []
           else [Broadcast.ev_broadcastRawTransaction signedTransaction])
       ++ [Broadcast.ev_getReceiver; Broadcast.ev_getSender;
           Broadcast.ev_toBase58 rcv; Broadcast.ev_toBase58 snd;
           Broadcast.ev_getFees; Broadcast.ev_libcoreAmountToBigNumber fr;
           Broadcast.ev_getGasLimit;
           Broadcast.ev_libcoreAmountToBigNumber gr])%list.
Proof.
  run_tezos.
  all: intros [= <- <-]; simpl.
  all: do 9 eexists; repeat (split; [reflexivity || done|]).
  all: by rewrite <- ?app_assoc.
Qed.

(** X23. An operation is attributed to the sub-account the draft names, to the
    account otherwise, and its identifier is made of that account
    identifier and of its hash; it is an [OUT] operation, not in a block
    yet, with one sender and one recipient. *)
Theorem operation_attribution (E : Broadcast.Env) (account : Account)
    (signedTransaction : string)
    (builded : Broadcast.CoreTezosLikeTransaction)
    (coreAccount : Broadcast.CoreAccount) (t : Transaction)
    (s : Broadcast.State) (op : Broadcast.Operation)
    (s' : Broadcast.State) :
  Broadcast.tezos E account signedTransaction builded coreAccount t s
  = (Ok op, s') ->
  Broadcast.op_id op
  = Broadcast.op_accountId op +:+ "-" +:+ Broadcast.op_hash op +:+ "-OUT"
  /\
  (targets_subAccount t ->
   t_subAccountId t = Some (Broadcast.op_accountId op)) /\
  (~ targets_subAccount t -> Broadcast.op_accountId op = acc_id account) /\
  Broadcast.op_type op = "OUT" /\
  Broadcast.op_blockHash op = None /\ Broadcast.op_blockHeight op = None /\
  length (Broadcast.op_senders op) = 1%nat /\
  length (Broadcast.op_recipients op) = 1%nat.
Proof.
  intros Hrun.
  destruct (tezos_inv _ _ _ _ _ _ _ _ _ Hrun)
    as (tla & rcv & snd & r58 & s58 & fr & fz & gr & gz & _ & _ & _ & _ & _
        & _ & _ & _ & _ & _ & Hid & Hacc & _ & _ & _ & Htype & Hsenders
        & Hrecipients & Hblock & Hheight & _).
  destruct (accountId_cases account t) as [Hsub Hparent].
  split; [done|]. rewrite Hacc, Hsenders, Hrecipients. by repeat split.
Qed.

Lemma operation_attribution_witness :
  exists op,
    fst (Broadcast.tezos Sample.node Sample.alice "1234" Sample.built
                         Sample.core Sample.send_all_sub Sample.s0)
    = Ok op /\
    Broadcast.op_id op = "KT1sub-oo1234-OUT".
Proof.
  destruct (Broadcast.tezos Sample.node Sample.alice "1234" Sample.built
                            Sample.core Sample.send_all_sub Sample.s0)
    as [[op|e] s'] eqn:Hrun; [|by vm_compute in Hrun].
  exists op. split; [done|].
  destruct (operation_attribution _ _ _ _ _ _ _ _ _ Hrun)
    as (Hid & Hsub & _).
  assert (Broadcast.op_hash op = "oo1234") as Hhash.
  { vm_compute in Hrun. by injection Hrun as <- _. }
  assert (Some (Broadcast.op_accountId op) = Some "KT1sub") as [= Hacc].
  { symmetry. apply Hsub. by exists "KT1sub". }
  by rewrite Hid, Hhash, Hacc.
Defined.

(** X24. The fee of an operation is the fees times the gas limit of the built
    transaction.  Its value is the amount of the draft plus that fee, or,
    in all-balance mode, the balance of the account, of the parent account
    also when the draft names a sub-account, whatever the fee. *)
Theorem operation_value (E : Broadcast.Env) (account : Account)
    (signedTransaction : string)
    (builded : Broadcast.CoreTezosLikeTransaction)
    (coreAccount : Broadcast.CoreAccount) (t : Transaction)
    (s : Broadcast.State) (op : Broadcast.Operation)
    (s' : Broadcast.State) :
  Broadcast.tezos E account signedTransaction builded coreAccount t s
  = (Ok op, s') ->
  (exists fr fz gr gz,
     Broadcast.getFees builded = Ok fr /\
     Broadcast.libcoreAmountToBigNumber E fr = Ok fz /\
     Broadcast.getGasLimit builded = Ok gr /\
     Broadcast.libcoreAmountToBigNumber E gr = Ok gz /\
     bn_val (Broadcast.op_fee op) = fz * gz) /\
  (t_useAllAmount t = Some true ->
   Broadcast.op_value op = acc_balance account) /\
  (t_useAllAmount t <> Some true ->
   bn_val (Broadcast.op_value op)
   = bn_val (t_amount t) + bn_val (Broadcast.op_fee op)).
Proof.
  intros Hrun.
  destruct (tezos_inv _ _ _ _ _ _ _ _ _ Hrun)
    as (tla & rcv & snd & r58 & s58 & fr & fz & gr & gz & _ & _ & _ & _ & _
        & Hfr & Hfz & Hgr & Hgz & _ & _ & _ & Hfee & Hall & Hpart & _).
  split; [by exists fr, fz, gr, gz|]. split.
  - intros Hu. apply Hall. by apply toBoolean_useAllAmount.
  - intros Hu. rewrite Hfee. apply Hpart. apply not_true_is_false.
    by rewrite toBoolean_useAllAmount.
Qed.

Lemma operation_value_witness :
  exists op,
    fst (Broadcast.tezos Sample.node Sample.alice "1234" Sample.built
                         Sample.core Sample.send_all_sub Sample.s0)
    = Ok op /\
    Broadcast.op_value op = mkBN 10 5000000.
Proof.
  destruct (Broadcast.tezos Sample.node Sample.alice "1234" Sample.built
                            Sample.core Sample.send_all_sub Sample.s0)
    as [[op|e] s'] eqn:Hrun; [|by vm_compute in Hrun].
  exists op. split; [done|].
  destruct (operation_value _ _ _ _ _ _ _ _ _ Hrun) as (_ & Hall & _).
  by apply Hall.
Defined.

(** What was called is kept: the calls of a run come after those made
    before it. *)
Lemma tezos_events E account signedTransaction builded coreAccount t s :
  exists evs,
    Broadcast.events
      (snd (Broadcast.tezos E account signedTransaction builded coreAccount
                            t s))
    = (Broadcast.events s
       ++ Broadcast.ev_asTezosLikeAccount :: evs)%list /\
    (Broadcast.getEnv E "DISABLE_TRANSACTION_BROADCAST" = true ->
     forallb (fun ev => negb (Broadcast.is_broadcast ev)) evs = true) /\
    (forall tla h,
       Broadcast.getEnv E "DISABLE_TRANSACTION_BROADCAST" = false ->
       Broadcast.as_TezosLikeAccount coreAccount = Ok tla ->
       Broadcast.broadcastRawTransaction tla signedTransaction = Ok h ->
       exists evs',
         evs = Broadcast.ev_getEnv "DISABLE_TRANSACTION_BROADCAST"
               :: Broadcast.ev_broadcastRawTransaction signedTransaction
               :: Broadcast.ev_getReceiver :: evs').
Proof.
  run_tezos.
  all: eexists; split; [rewrite <- ?app_assoc; reflexivity|].
  all: split; [try done; intros; congruence|].
  all: intros tla h Hoff Htla Hbroadcast; try congruence.
  all: try (injection Htla as <-; congruence).
  all: by eexists.
Qed.

(** X25. With broadcasting disabled nothing is broadcast, however the run
    ends, and the operation that is built has an empty hash, hence an
    identifier with nothing between its two dashes. *)
Theorem broadcast_disabled (E : Broadcast.Env) (account : Account)
    (signedTransaction : string)
    (builded : Broadcast.CoreTezosLikeTransaction)
    (coreAccount : Broadcast.CoreAccount) (t : Transaction)
    (s : Broadcast.State) :
  Broadcast.getEnv E "DISABLE_TRANSACTION_BROADCAST" = true ->
  (exists evs,
     Broadcast.events
       (snd (Broadcast.tezos E account signedTransaction builded
                             coreAccount t s))
     = (Broadcast.events s ++ evs)%list /\
     forallb (fun ev => negb (Broadcast.is_broadcast ev)) evs = true) /\
  (forall op s',
     Broadcast.tezos E account signedTransaction builded coreAccount t s
     = (Ok op, s') ->
     Broadcast.op_hash op = "" /\
     Broadcast.op_id op = Broadcast.op_accountId op +:+ "--OUT").
Proof.
  intros Hdry. split.
  - destruct (tezos_events E account signedTransaction builded coreAccount
                           t s) as (evs & Hevs & Hnone & _).
    eexists. split; [exact Hevs|]. simpl. by apply Hnone.
  - intros op s' Hrun.
    destruct (tezos_inv _ _ _ _ _ _ _ _ _ Hrun)
      as (tla & rcv & snd & r58 & s58 & fr & fz & gr & gz & _ & _ & _ & _
          & _ & _ & _ & _ & _ & Hhash & Hid & _).
    rewrite Hdry in Hhash. by rewrite Hid, Hhash.
Qed.

Lemma broadcast_disabled_witness :
  exists op,
    fst (Broadcast.tezos Sample.node_dry Sample.alice "1234" Sample.built
                         Sample.core Sample.to_bob_prepared Sample.s0)
    = Ok op /\
    Broadcast.op_id op = "libcore:1:tezos:xpub:--OUT".
Proof.
  destruct (Broadcast.tezos Sample.node_dry Sample.alice "1234" Sample.built
                            Sample.core Sample.to_bob_prepared Sample.s0)
    as [[op|e] s'] eqn:Hrun; [|by vm_compute in Hrun].
  exists op. split; [done|].
  destruct (broadcast_disabled Sample.node_dry Sample.alice "1234"
              Sample.built Sample.core Sample.to_bob_prepared Sample.s0
              eq_refl) as [_ Hop].
  destruct (Hop op s' Hrun) as [_ ->].
  assert (Broadcast.op_accountId op = "libcore:1:tezos:xpub:") as ->; [|done].
  vm_compute in Hrun. by injection Hrun as <- _.
Defined.

(** X26. With broadcasting enabled, a rejected broadcast is the rejection of
    the run, right after the broadcast: nothing is read from the built
    transaction and no operation is made.  And the hash of an operation
    that is built is what the broadcast resolved to. *)
Theorem broadcast_outcome (E : Broadcast.Env) (account : Account)
    (signedTransaction : string)
    (builded : Broadcast.CoreTezosLikeTransaction)
    (coreAccount : Broadcast.CoreAccount) (t : Transaction)
    (s : Broadcast.State) (tla : Broadcast.CoreTezosLikeAccount) :
  Broadcast.getEnv E "DISABLE_TRANSACTION_BROADCAST" = false ->
  Broadcast.as_TezosLikeAccount coreAccount = Ok tla ->
  (forall e,
     Broadcast.broadcastRawTransaction tla signedTransaction = Throw e ->
     Broadcast.tezos E account signedTransaction builded coreAccount t s
     = (Throw e,
        Broadcast.mkState
          (Broadcast.events s
           ++ [Broadcast.ev_asTezosLikeAccount;
               Broadcast.ev_getEnv "DISABLE_TRANSACTION_BROADCAST";
               Broadcast.ev_broadcastRawTransaction signedTransaction])
          (Broadcast.next_address s))) /\
  (forall op s',
     Broadcast.tezos E account signedTransaction builded coreAccount t s
     = (Ok op, s') ->
     Broadcast.broadcastRawTransaction tla signedTransaction
     = Ok (Broadcast.op_hash op)).
Proof.
  intros Hoff Htla. split.
  - intros e Hreject.
    unfold Broadcast.tezos, mbind, Broadcast.B_bind, Broadcast.call. simpl.
    rewrite Htla, Hoff. simpl. rewrite Hreject. simpl.
    by rewrite <- !app_assoc.
  - intros op s' Hrun.
    destruct (tezos_inv _ _ _ _ _ _ _ _ _ Hrun)
      as (tla' & rcv & snd & r58 & s58 & fr & fz & gr & gz & Htla' & _ & _
          & _ & _ & _ & _ & _ & _ & Hhash & _).
    rewrite Hoff in Hhash. congruence.
Qed.

Lemma broadcast_outcome_witness :
  fst (Broadcast.tezos Sample.node Sample.alice "1234" Sample.built
                       Sample.core_rejecting Sample.to_bob_prepared
                       Sample.s0)
  = Throw Sample.Unreachable.
Proof.
  destruct (broadcast_outcome Sample.node Sample.alice "1234" Sample.built
              Sample.core_rejecting Sample.to_bob_prepared Sample.s0
              Sample.rejecting eq_refl eq_refl) as [Hreject _].
  by rewrite (Hreject Sample.Unreachable eq_refl).
Defined.

(** X27. A rejection that comes after the broadcast does not undo it: once the
    broadcast has resolved, the run may still be rejected, by a getter of
    the built transaction or by a conversion, and the transaction has been
    broadcast all the same, before anything was read from the built
    transaction. *)
Theorem rejection_after_broadcast (E : Broadcast.Env) (account : Account)
    (signedTransaction : string)
    (builded : Broadcast.CoreTezosLikeTransaction)
    (coreAccount : Broadcast.CoreAccount) (t : Transaction)
    (s : Broadcast.State) (tla : Broadcast.CoreTezosLikeAccount)
    (h : string) :
  Broadcast.getEnv E "DISABLE_TRANSACTION_BROADCAST" = false ->
  Broadcast.as_TezosLikeAccount coreAccount = Ok tla ->
  Broadcast.broadcastRawTransaction tla signedTransaction = Ok h ->
  (exists evs,
     Broadcast.events
       (snd (Broadcast.tezos E account signedTransaction builded
                             coreAccount t s))
     = (Broadcast.events s
        ++ [Broadcast.ev_asTezosLikeAccount;
            Broadcast.ev_getEnv "DISABLE_TRANSACTION_BROADCAST";
            Broadcast.ev_broadcastRawTransaction signedTransaction;
            Broadcast.ev_getReceiver]
        ++ evs)%list) /\
  (forall e,
     Broadcast.getReceiver builded = Throw e ->
     fst (Broadcast.tezos E account signedTransaction builded coreAccount
                          t s)
     = Throw e).
Proof.
  intros Hoff Htla Hbroadcast. split.
  - destruct (tezos_events E account signedTransaction builded coreAccount
                           t s) as (evs & Hevs & _ & Hafter).
    destruct (Hafter tla h Hoff Htla Hbroadcast) as (evs' & ->).
    by exists evs'.
  - intros e Hreject.
    unfold Broadcast.tezos, mbind, Broadcast.B_bind, Broadcast.call. simpl.
    rewrite Htla, Hoff. simpl. rewrite Hbroadcast. simpl.
    by rewrite Hreject.
Qed.

Lemma rejection_after_broadcast_witness :
  fst (Broadcast.tezos Sample.node Sample.alice "1234" Sample.built_broken
                       Sample.core Sample.to_bob_prepared Sample.s0)
  = Throw Sample.Unreachable.
Proof.
  destruct (rejection_after_broadcast Sample.node Sample.alice "1234"
              Sample.built_broken Sample.core Sample.to_bob_prepared
              Sample.s0 Sample.accepting "oo1234" eq_refl eq_refl eq_refl)
    as [_ Hreject].
  by apply Hreject.
Defined.

(** * A recipient that the validator rejects *)

(** The fee is not computed for a recipient the validator rejects: the
    computation is rejected with the error of the validator, and the
    transaction is not priced. *)
Lemma calculateFees_invalid_recipient X a t w e :
  cache_get (calculateFees_key X a t) (feesCache w) = None ->
  recipientError (validateRecipient X (history w ++ [call_calculateFees a t])
                                    (acc_currency a) (t_recipient t))
  = Some e ->
  fst (calculateFees X a t w) = Throw e /\
  history (snd (calculateFees X a t w))
  = (history w
     ++ [call_calculateFees a t;
         call_validateRecipient (acc_currency a) (t_recipient t)])%list.
Proof.
  intros Hmiss Hinvalid.
  unfold calculateFees, makeLRUCache, calculateFees_compute. step.
  rewrite Hmiss, Hinvalid. simpl. by rewrite <- app_assoc.
Qed.

(** X28. A rejected recipient is reported twice.  When the draft has fees, the
    fee calculator has nothing in store for it and the validator rejects
    its recipient, the transaction is never priced: the evaluation calls
    the fee calculator and the validator twice, nothing else; the error of
    the first validation is recorded under [transaction] (under [amount]
    if it is named [NotEnoughBalance]), what the second validation answers
    is recorded under [recipient], and the estimated fees are zero. *)
Theorem rejected_recipient_is_reported_twice (X : Collaborators)
    (a : Account) (t : Transaction) (w : World) (e : JsError) :
  is_Some (t_fees t) ->
  cache_get (calculateFees_key X a t) (feesCache w) = None ->
  recipientError (validateRecipient X (history w ++ [call_calculateFees a t])
                                    (acc_currency a) (t_recipient t))
  = Some e ->
  exists st w',
    getTransactionStatus X a t w = (Ok st, w') /\
    history w'
    = (history w
       ++ [call_calculateFees a t;
           call_validateRecipient (acc_currency a) (t_recipient t);
           call_validateRecipient (acc_currency a) (t_recipient t)])%list
    /\
    errors st !! (if String.eqb (err_name e) "NotEnoughBalance"
                  then "amount" else "transaction") = Some e /\
    errors st !! "recipient"
    = recipientError
        (validateRecipient X
           (history w
            ++ [call_calculateFees a t;
                call_validateRecipient (acc_currency a) (t_recipient t)])
           (acc_currency a) (t_recipient t)) /\
    bn_val (estimatedFees st) = 0.
Proof.
  intros Hf Hmiss Hinvalid.
  destruct (calculateFees_invalid_recipient X a t w e Hmiss Hinvalid)
    as [Hthrow Hcalls].
  destruct (calculateFees X a t w) as [p w3] eqn:Hrun. simpl in *. subst p.
  destruct (getTransactionStatus_shape X a t w)
    as (ef & errs0 & w2 & st & w' & Hfees & Hstatus & Hef & _ & _ & _
        & Herr & Hrec & _ & Hhist & _).
  destruct (fees_outcome_failure X a t w ef errs0 w2 e w3 Hf Hrun Hfees)
    as (-> & -> & ->).
  exists st, w'. split; [done|]. simpl in *. rewrite Hcalls in *.
  split; [by rewrite Hhist, <- app_assoc|].
  split; [|split; [done|by rewrite Hef]].
  destruct (String.eqb (err_name e) "NotEnoughBalance");
    rewrite Herr by done; by rewrite lookup_insert_eq.
Qed.

Lemma rejected_recipient_is_reported_twice_witness :
  exists st w',
    getTransactionStatus Sample.engine Sample.alice Sample.to_nobody
                         Sample.w0
    = (Ok st, w') /\
    errors st !! "transaction" = Some Sample.InvalidAddress /\
    errors st !! "recipient" = Some Sample.InvalidAddress.
Proof.
  destruct (rejected_recipient_is_reported_twice Sample.engine Sample.alice
              Sample.to_nobody Sample.w0 Sample.InvalidAddress)
    as (st & w' & Hrun & _ & Htx & Hrec & _).
  - by eexists.
  - reflexivity.
  - reflexivity.
  - by exists st, w'.
Defined.

(** * What a rejected fetch and an evaluation leave behind *)

(** X29. When the draft has no network info and its fetch is rejected, the
    preparation is rejected with the same error, and the fetch is the only
    call that was made. *)
Theorem rejected_fetch_is_propagated (X : Collaborators) (a : Account)
    (t : Transaction) (w : World) (e : JsError) :
  t_networkInfo t = None ->
  getAccountNetworkInfo X (history w) a = Throw e ->
  prepareTransaction X a t w
  = (Throw e,
     mkWorld (history w ++ [call_getAccountNetworkInfo a]) (next_ref w)
             (gasCache w) (feesCache w)).
Proof.
  intros Hni Hfetch. apply prepareTransaction_networkInfo_throws.
  by rewrite (prepareTransaction_networkInfo_absent _ _ _ _ Hni), Hfetch.
Qed.

Lemma rejected_fetch_is_propagated_witness :
  prepareTransaction
    (mkCollaborators (fun _ _ => Throw Sample.Unreachable) Sample.validate
                     (fun _ _ => Ok tt) (fun _ _ _ => Ok (mkBN 3 10300))
                     (fun _ _ _ => Ok (mkBN 4 300)) Sample.price
                     Sample.decimal 100)
    Sample.alice Sample.to_bob Sample.w0
  = (Throw Sample.Unreachable,
     mkWorld [call_getAccountNetworkInfo Sample.alice] 1000 [] []).
Proof.
  by apply (rejected_fetch_is_propagated
              (mkCollaborators (fun _ _ => Throw Sample.Unreachable)
                 Sample.validate (fun _ _ => Ok tt)
                 (fun _ _ _ => Ok (mkBN 3 10300))
                 (fun _ _ _ => Ok (mkBN 4 300)) Sample.price Sample.decimal
                 100)
              Sample.alice Sample.to_bob Sample.w0 Sample.Unreachable).
Defined.

(** The calls of the fee calculator. *)
Lemma calculateFees_calls X a t w :
  exists calls,
    history (snd (calculateFees X a t w)) = (history w ++ calls)%list /\
    forallb is_status_call calls = true /\
    gasCache (snd (calculateFees X a t w)) = gasCache w.
Proof.
  unfold calculateFees, makeLRUCache, calculateFees_compute. step.
  destruct (cache_get _ (feesCache w)) as [p|]; simpl.
  { by eexists [_]. }
  destruct (recipientError _) as [e|]; simpl.
  { eexists. by rewrite <- !app_assoc. }
  destruct (getFeesForTransaction _ _ _ _) as [f|e]; simpl.
  all: eexists; by rewrite <- !app_assoc.
Qed.

(** X30. An evaluation of the status only calls the fee calculator, the
    recipient validator and the pricing of the transaction: it never
    fetches the network info, never asserts and never estimates gas or
    storage, and it leaves the cache of the estimator as it was. *)
Theorem status_calls (X : Collaborators) (a : Account) (t : Transaction)
    (w : World) (st : TransactionStatus) (w' : World) :
  getTransactionStatus X a t w = (Ok st, w') ->
  exists calls,
    history w' = (history w ++ calls)%list /\
    forallb is_status_call calls = true /\
    gasCache w' = gasCache w.
Proof.
  intros Hrun.
  destruct (getTransactionStatus_shape X a t w)
    as (ef & errs0 & w2 & st0 & w0 & Hfees & Hrun0 & _ & _ & _ & _ & _ & _
        & _ & Hhist & _ & Hgas).
  rewrite Hrun in Hrun0. injection Hrun0 as <- <-.
  assert (exists calls,
            history w2 = (history w ++ calls)%list /\
            forallb is_status_call calls = true /\
            gasCache w2 = gasCache w) as (calls & Hcalls & Hall & Hcache).
  { destruct (calculateFees_calls X a t (allocated w))
      as (calls & Hcalls & Hall & Hcache).
    inversion Hfees as [Hf|f w3 _ Hc|e w3 _ Hc Hn|e w3 _ Hc Hn]; subst.
    - exists []. by rewrite app_nil_r.
    - rewrite Hc in *. by exists calls.
    - rewrite Hc in *. by exists calls.
    - rewrite Hc in *. by exists calls. }
  exists (calls
          ++ [call_validateRecipient (acc_currency a) (t_recipient t)])%list.
  split; [by rewrite Hhist, Hcalls, app_assoc|].
  split; [|congruence].
  rewrite forallb_app, Hall. done.
Qed.

Lemma status_calls_witness :
  exists calls,
    history (snd (getTransactionStatus Sample.engine Sample.alice
                    Sample.to_bob_prepared Sample.w0))
    = calls
    /\ forallb is_status_call calls = true.
Proof.
  destruct (getTransactionStatus Sample.engine Sample.alice
              Sample.to_bob_prepared Sample.w0) as [[st|e] w'] eqn:Hrun;
    [|by vm_compute in Hrun].
  destruct (status_calls Sample.engine Sample.alice
              Sample.to_bob_prepared Sample.w0 st w' Hrun)
    as (calls & Hcalls & Hall & _).
  exists calls. by split.
Defined.
